(** * Benchmark regression gate

    A shallow embedding of [.github/scripts/benchmark_regression_gate.py]
    and the properties its specification states about it.

    The script is Python, so every value it touches is dynamically typed.
    The embedding keeps that: JSON documents are [value]s, the operations
    the script applies to them ([.get], [float()], [in], [-], [/], [>],
    format specs) are functions that return a [result], and an exception
    Python would raise is a [Raise].  Floating-point numbers are IEEE
    binary64, taken from the Standard Library's [SpecFloat]; printing and
    the two file-system calls go through a small state-and-error monad.

    Layout: the numbers of Python ([Py]); JSON values and the operations
    on them; the script itself (section [Script]); the vocabulary of the
    properties; facts about binary64 ([PyFacts]); lemmas on one entry, on
    the loop and on a run; the properties C1-C10; concrete runs; further
    properties. *)

From Stdlib Require Import ZArith String List Lia Floats.SpecFloat.
From stdpp Require Import base option gmap strings list pretty.

Set Warnings "-register-all".
#[local] Open Scope Z_scope.

(** ** Exceptions and the error monad *)

Inductive exn :=
  | AttributeError | TypeError | ValueError | KeyError | IndexError
  | OverflowError | ZeroDivisionError.

Inductive result (A : Type) :=
  | Ok (a : A)
  | Raise (e : exn).
Arguments Ok {A} a.
Arguments Raise {A} e.

#[global] Instance result_ret : MRet result := @Ok.
#[global] Instance result_bind : MBind result := λ A B f m,
  match m with Ok a => f a | Raise e => Raise e end.

Definition raises {A} (m : result A) : Prop := ∃ e, m = Raise e.
Definition returns {A} (m : result A) : Prop := ∃ a, m = Ok a.

(** ** Numbers: Python [int] and [float] *)

Module Py.

Abbreviation float := spec_float.

Definition prec : Z := 53.
Definition emax : Z := 1024.

Definition fsub : float → float → float := SFsub prec emax.
Definition fmul : float → float → float := SFmul prec emax.
Definition fdiv : float → float → float := SFdiv prec emax.
Definition fltb : float → float → bool := SFltb.
Definition feqb : float → float → bool := SFeqb.
Definition fzero : float := S754_zero false.

(** Nearest binary64 to an integer, ties to even. *)
Definition float_of_Z (z : Z) : float := binary_normalize prec emax z 0 false.

Inductive number :=
  | NInt (z : Z)
  | NFloat (f : float).

(** [int] to [float] as CPython's PyLong_AsDouble does it: the nearest
    double, and OverflowError when that is out of range. *)
Definition int_to_float (z : Z) : result float :=
  match float_of_Z z with
  | S754_infinity _ => Raise OverflowError
  | f => Ok f
  end.

(** The operand conversion of float arithmetic with an [int] or [float]
    on the right. *)
Definition as_float (n : number) : result float :=
  match n with
  | NInt z => int_to_float z
  | NFloat f => Ok f
  end.

(** [a - b] with [a] a float. *)
Definition float_sub (a : float) (b : number) : result float :=
  fb ← as_float b; Ok (fsub a fb).

(** [a / b] with [a] a float: a zero divisor raises. *)
Definition float_truediv (a : float) (b : number) : result float :=
  fb ← as_float b;
  if feqb fb fzero then Raise ZeroDivisionError else Ok (fdiv a fb).

(** [n * k] with [k] an int literal. *)
Definition mul_int (n : number) (k : Z) : result number :=
  match n with
  | NInt z => Ok (NInt (z * k))
  | NFloat f => fk ← int_to_float k; Ok (NFloat (fmul f fk))
  end.

Definition abs (n : number) : number :=
  match n with
  | NInt z => NInt (Z.abs z)
  | NFloat f => NFloat (SFabs f)
  end.

(** [n == 0]. *)
Definition eq_zero (n : number) : bool :=
  match n with
  | NInt z => z =? 0
  | NFloat f => feqb f fzero
  end.

(** Python compares an [int] with a [float] by value, without rounding
    the int: [z] against [±m·2^e]. *)
Definition Z_compare_float (z : Z) (f : float) : option comparison :=
  match f with
  | S754_nan => None
  | S754_infinity s => Some (if s then Gt else Lt)
  | S754_zero _ => Some (z ?= 0)
  | S754_finite s m e =>
      let v := if s then Zneg m else Zpos m in
      Some (if 0 <=? e then z ?= v * 2 ^ e else z * 2 ^ (- e) ?= v)
  end.

(** [a > b]. *)
Definition gt (a b : number) : bool :=
  match a, b with
  | NInt x, NInt y => y <? x
  | NFloat x, NFloat y => fltb y x
  | NInt x, NFloat y =>
      match Z_compare_float x y with Some Gt => true | _ => false end
  | NFloat x, NInt y =>
      match Z_compare_float y x with Some Lt => true | _ => false end
  end.

(** [a is b or a == b], the test behind [in] on a list and behind [==]
    on containers, between numbers of loaded documents.  Equality is by
    value, an [int] against a [float] without rounding.  A NaN is equal
    to no number, itself included, but [json.load] returns one and the
    same object, [json.decoder.NaN], for every [NaN] it reads, so between
    two NaN of loaded documents the identity test holds. *)
Definition same_or_eq (a b : number) : bool :=
  match a, b with
  | NInt x, NInt y => x =? y
  | NFloat S754_nan, NFloat S754_nan => true
  | NFloat x, NFloat y => feqb x y
  | NInt x, NFloat y | NFloat y, NInt x =>
      match Z_compare_float x y with Some Eq => true | _ => false end
  end.

(** *** The format spec [.Nf]

    Fixed-point notation with [digits] places, correctly rounded from the
    exact binary value, ties to even; the sign is kept on a result that
    rounds to zero. *)

Definition round_half_even (num den : Z) : Z :=
  let q := num / den in
  match 2 * (num mod den) ?= den with
  | Lt => q
  | Eq => if Z.even q then q else q + 1
  | Gt => q + 1
  end.

(** [|m·2^e| · 10^digits], rounded to an integer. *)
Definition scaled_digits (digits : nat) (m : positive) (e : Z) : Z :=
  let num := Zpos m * 10 ^ Z.of_nat digits in
  if 0 <=? e then num * 2 ^ e else round_half_even num (2 ^ (- e)).

(** [s * n]. *)
Fixpoint repeat_string (n : nat) (s : string) : string :=
  match n with
  | O => ""
  | S k => s +:+ repeat_string k s
  end.

Definition zero_pad (width : nat) (s : string) : string :=
  repeat_string (width - String.length s) "0" +:+ s.

Definition render_fixed (digits : nat) (n : Z) : string :=
  let scale := 10 ^ Z.of_nat digits in
  match digits with
  | O => pretty n
  | _ => pretty (n / scale) +:+ "." +:+ zero_pad digits (pretty (n mod scale))
  end.

Definition sign_prefix (s : bool) : string := if s then "-" else "".

Definition format_float (digits : nat) (f : float) : string :=
  match f with
  | S754_nan => "nan"
  | S754_infinity s => sign_prefix s +:+ "inf"
  | S754_zero s => sign_prefix s +:+ render_fixed digits 0
  | S754_finite s m e => sign_prefix s +:+ render_fixed digits (scaled_digits digits m e)
  end.

(** An [int] formatted with [f] is converted to [float] first. *)
Definition format_f (digits : nat) (n : number) : result string :=
  f ← as_float n; Ok (format_float digits f).

End Py.

(** ** JSON documents as Python values

    What [json.load] returns: [None], [bool], [int], [float] (the parser
    accepts [NaN] and [Infinity]), [str], [list] and [dict] with string
    keys. *)

Inductive value :=
  | VNone
  | VBool (b : bool)
  | VInt (z : Z)
  | VFloat (f : Py.float)
  | VStr (s : string)
  | VList (l : list value)
  | VDict (d : gmap string value).

(** [obj.get(key, default)]: only a dict has the method. *)
Definition py_get (obj : value) (key : string) (dflt : value) : result value :=
  match obj with
  | VDict d => Ok (default dflt (d !! key))
  | _ => Raise AttributeError
  end.

(** A str is held as its UTF-8 bytes.  Its characters, which iteration
    and indexing go by, are the code points: one starts at every byte
    that is not a continuation byte [10xxxxxx]. *)
Definition continuation_byte (a : Ascii.ascii) : bool :=
  let n := Z.of_nat (Ascii.nat_of_ascii a) in (128 <=? n) && (n <? 192).

Fixpoint code_points (s : string) : list string :=
  match s with
  | EmptyString => []
  | String a rest =>
      let cps := code_points rest in
      let continued :=
        match rest with
        | String c _ => continuation_byte c
        | EmptyString => false
        end in
      match continued, cps with
      | true, cp :: cps' => String a cp :: cps'
      | _, _ => String a "" :: cps
      end
  end.

(** The items a [for] loop draws from a value: the elements of a list, the
    keys of a dict, the characters of a str; anything else is not
    iterable. *)
Definition py_iter (v : value) : result (list value) :=
  match v with
  | VList l => Ok l
  | VDict d => Ok (VStr <$> (map_to_list d).*1)
  | VStr s => Ok (VStr <$> code_points s)
  | _ => Raise TypeError
  end.

(** The numeric reading of a value in arithmetic and comparisons: [bool]
    is a subclass of [int]. *)
Definition as_number (v : value) : option Py.number :=
  match v with
  | VBool b => Some (Py.NInt (Z.b2z b))
  | VInt z => Some (Py.NInt z)
  | VFloat f => Some (Py.NFloat f)
  | _ => None
  end.

(** [v == 0]: a value that is not a number is not equal to [0]. *)
Definition py_eq_zero (v : value) : bool :=
  match as_number v with
  | Some n => Py.eq_zero n
  | None => false
  end.

(** [a - v] and [a / v] with [a] a float. *)
Definition py_sub (a : Py.float) (v : value) : result Py.float :=
  match as_number v with
  | Some n => Py.float_sub a n
  | None => Raise TypeError
  end.

Definition py_truediv (a : Py.float) (v : value) : result Py.float :=
  match as_number v with
  | Some n => Py.float_truediv a n
  | None => Raise TypeError
  end.

(** [format(v, ".Nf")]. *)
Definition py_format_f (digits : nat) (v : value) : result string :=
  match v with
  | VStr _ => Raise ValueError
  | _ =>
      match as_number v with
      | Some n => Py.format_f digits n
      | None => Raise TypeError
      end
  end.

(** [a is b or a == b] between values of loaded documents: [None] equals
    [None]; numbers, [bool] among them, compare by value; strings compare
    as strings; two lists are equal when they have the same length and
    equal elements, two dicts when they have the same keys with equal
    values; values of different kinds differ. *)
Fixpoint py_eq (a b : value) {struct a} : bool :=
  match a, b with
  | VNone, VNone => true
  | VStr s, VStr s' => bool_decide (s = s')
  | VList l, VList l' =>
      (fix all_eq (l l' : list value) : bool :=
         match l, l' with
         | [], [] => true
         | x :: l, y :: l' => py_eq x y && all_eq l l'
         | _, _ => false
         end) l l'
  | VDict d, VDict d' =>
      bool_decide (size d = size d') &&
      map_fold (λ k v acc,
                  acc && match d' !! k with
                         | Some v' => py_eq v v'
                         | None => false
                         end) true d
  | (VBool _ | VInt _ | VFloat _), (VBool _ | VInt _ | VFloat _) =>
      match as_number a, as_number b with
      | Some x, Some y => Py.same_or_eq x y
      | _, _ => false
      end
  | _, _ => false
  end.

(** [needle in hay] on two strings. *)
Fixpoint is_substring (needle hay : string) : bool :=
  String.prefix needle hay ||
  match hay with
  | EmptyString => false
  | String _ rest => is_substring needle rest
  end.

(** A key a dict lookup accepts: hashing refuses a list and a dict. *)
Definition hashable (v : value) : bool :=
  match v with
  | VList _ | VDict _ => false
  | _ => true
  end.

(** [key in container], line 52.  A dict hashes the key first, and its
    keys are strings; a list compares the key with each of its elements;
    a str looks for a substring and takes nothing but a str; no other
    value is a container. *)
Definition py_contains (container key : value) : result bool :=
  match container with
  | VDict d =>
      if hashable key then
        Ok (match key with
            | VStr s => bool_decide (is_Some (d !! s))
            | _ => false
            end)
      else Raise TypeError
  | VList l => Ok (existsb (λ x, py_eq x key) l)
  | VStr hay =>
      match key with
      | VStr needle => Ok (is_substring needle hay)
      | _ => Raise TypeError
      end
  | VNone | VBool _ | VInt _ | VFloat _ => Raise TypeError
  end.

(** The element of a sequence at an [int] index: a negative index counts
    from the end, and an index outside the sequence raises IndexError. *)
Definition sequence_item {A} (l : list A) (i : Z) : result A :=
  let j := if i <? 0 then i + Z.of_nat (length l) else i in
  match (if j <? 0 then None else l !! Z.to_nat j) with
  | Some x => Ok x
  | None => Raise IndexError
  end.

(** [container[key]], line 53.  A dict hashes the key and raises KeyError
    when it is not there; a list and a str take an [int] ([bool]
    included) as an index and nothing else; no other value can be
    subscripted. *)
Definition py_getitem (container key : value) : result value :=
  match container with
  | VDict d =>
      if hashable key then
        match key with
        | VStr s => match d !! s with Some v => Ok v | None => Raise KeyError end
        | _ => Raise KeyError
        end
      else Raise TypeError
  | VList l =>
      match key with
      | VBool b => sequence_item l (Z.b2z b)
      | VInt i => sequence_item l i
      | _ => Raise TypeError
      end
  | VStr s =>
      match key with
      | VBool b => c ← sequence_item (code_points s) (Z.b2z b); Ok (VStr c)
      | VInt i => c ← sequence_item (code_points s) i; Ok (VStr c)
      | _ => Raise TypeError
      end
  | VNone | VBool _ | VInt _ | VFloat _ => Raise TypeError
  end.

(** ** Categories of a benchmark entry *)

Inductive category :=
  | Regression
  | SlowerWithinThreshold
  | Improvement
  | NewBenchmark.

#[global] Instance category_eq_dec : EqDecision category.
Proof. solve_decision. Defined.

(** ** The three message lists, lines 43-45 *)

Record buckets := {
  regressions : list string;
  improvements : list string;
  new_benchmarks : list string
}.

Definition empty_buckets : buckets :=
  {| regressions := []; improvements := []; new_benchmarks := [] |}.

(** The [append] of the branch: the two non-regressing branches share
    [improvements]. *)
Definition append_msg (b : buckets) (c : category) (msg : string) : buckets :=
  match c with
  | Regression =>
      {| regressions := regressions b ++ [msg];
         improvements := improvements b;
         new_benchmarks := new_benchmarks b |}
  | SlowerWithinThreshold | Improvement =>
      {| regressions := regressions b;
         improvements := improvements b ++ [msg];
         new_benchmarks := new_benchmarks b |}
  | NewBenchmark =>
      {| regressions := regressions b;
         improvements := improvements b;
         new_benchmarks := new_benchmarks b ++ [msg] |}
  end.

(** One filed entry: the category of the branch and its message. *)
Definition place (b : buckets) (e : category * string) : buckets :=
  append_msg b e.1 e.2.

(** ** Files and standard output *)

Inductive which_file := ResultsFile | BaselineFile.

(** The two file-system calls of the script: [os.path.exists] and
    [open]. *)
Inductive fs_event :=
  | Probe (f : which_file)
  | Open (f : which_file).

(** What the run has printed, one entry per [print] call, and the
    file-system calls it has made, both oldest first. *)
Record console := {
  stdout : list string;
  fs_log : list fs_event
}.

Definition IO (A : Type) : Type := console → console * result A.

#[global] Instance IO_ret : MRet IO := λ A a c, (c, Ok a).
#[global] Instance IO_bind : MBind IO := λ A B f m c,
  match m c with
  | (c', Ok a) => f a c'
  | (c', Raise e) => (c', Raise e)
  end.

Definition lift {A} (r : result A) : IO A := λ c, (c, r).

Definition print (line : string) : IO unit := λ c,
  ({| stdout := stdout c ++ [line]; fs_log := fs_log c |}, Ok tt).

Definition fs_call (e : fs_event) : IO unit := λ c,
  ({| stdout := stdout c; fs_log := fs_log c ++ [e] |}, Ok tt).

(** A file that exists: [open] followed by [json.load] either raises, with
    the text of the exception, or returns the parsed document. *)
Inductive loaded (A : Type) :=
  | Unloadable (msg : string)
  | Document (doc : A).
Arguments Unloadable {A} msg.
Arguments Document {A} doc.

(** A run that has got past line 17: the arguments [parse_args] returned
    and the two files behind the paths ([None]: the path does not exist).
    Either file, when it loads, holds any JSON value.  Lines 13-17 are
    calls into [argparse]; a run whose command line it does not accept
    ends there, by an exception raised inside [argparse], before the
    script looks at any file, and is no [world]. *)
Record world := {
  results_file : string;
  regression_threshold : Py.float;
  results_on_disk : option (loaded value);
  baseline_on_disk : option (loaded value)
}.

Definition path_exists {A} (f : which_file) (file : option A) : IO bool :=
  fs_call (Probe f);; mret (bool_decide (is_Some file)).

(** The body of a [try: with open(..) as f: .. = json.load(f)]; the
    [except] clause is the [Unloadable] branch of the caller. *)
Definition open_and_load {A} (f : which_file) (file : option (loaded A))
  : IO (loaded A) :=
  fs_call (Open f);;
  mret (match file with
        | Some l => l
        | None => Unloadable "[Errno 2] No such file or directory"
        end).

Definition nl : string := String (Ascii.ascii_of_nat 10) "".

Definition rule : string := Py.repeat_string 70 "=".

Fixpoint print_each (msgs : list string) : IO unit :=
  match msgs with
  | [] => mret tt
  | msg :: rest => print ("  " +:+ msg);; print_each rest
  end.

(** Lines 101-102, [sys.exit(main())]: the value [main] returns is the
    exit status; an exception that leaves [main] ends the interpreter with
    status 1. *)
Definition exit_status (r : result Z) : Z :=
  match r with
  | Ok code => code
  | Raise _ => 1
  end.

(** ** The script *)

Section Script.

(** Two builtins of the interpreter are not code of this repository and
    have no counterpart here: the parser behind [float(s)] for a str [s]
    ([None] where it raises ValueError), and [repr] of a float, a list or
    a dict.  The script reaches the first only for a string-valued [mean]
    and the second only for a [method] that is not a string.  Everything
    below holds for whatever these two functions are. *)
Variable float_of_str : string → option Py.float.
Variable py_repr : value → string.

(** [float(v)]. *)
Definition py_float (v : value) : result Py.float :=
  match v with
  | VBool b => Ok (Py.float_of_Z (Z.b2z b))
  | VInt z => Py.int_to_float z
  | VFloat f => Ok f
  | VStr s =>
      match float_of_str s with
      | Some f => Ok f
      | None => Raise ValueError
      end
  | VNone | VList _ | VDict _ => Raise TypeError
  end.

(** [str(v)], which is what an f-string field without a format spec
    shows. *)
Definition py_str (v : value) : string :=
  match v with
  | VStr s => s
  | VNone => "None"
  | VBool b => if b then "True" else "False"
  | VInt z => pretty z
  | VFloat _ | VList _ | VDict _ => py_repr v
  end.

(** [item.get("method")] and [float(item.get("mean", 0))], lines 49-50. *)
Definition item_method (item : value) : result value :=
  py_get item "method" VNone.

Definition item_mean (item : value) : result Py.float :=
  m ← py_get item "mean" (VInt 0); py_float m.

(** Lines 54-57: the relative change against a baseline entry. *)
Definition compute_change (mean : Py.float) (baseline_mean : value)
  : result Py.number :=
  if py_eq_zero baseline_mean then Ok (Py.NInt 0)
  else
    d ← py_sub mean baseline_mean;
    q ← py_truediv d baseline_mean;
    Ok (Py.NFloat q).

(** Lines 59-71: the three branches on [change], each with the message it
    appends. *)
Definition judge (threshold : Py.float) (method : value) (mean : Py.float)
    (baseline_mean : value) (change : Py.number) : result (category * string) :=
  if Py.gt change (Py.NFloat threshold) then
    pct ← Py.mul_int change 100;
    pct_s ← Py.format_f 1 pct;
    base_s ← py_format_f 0 baseline_mean;
    Ok (Regression,
        py_str method +:+ ": " +:+ pct_s +:+ "% regression (baseline: " +:+
        base_s +:+ "ns, current: " +:+ Py.format_float 0 mean +:+ "ns)")
  else if Py.gt change (Py.NInt 0) then
    pct ← Py.mul_int change 100;
    pct_s ← Py.format_f 1 pct;
    Ok (SlowerWithinThreshold,
        py_str method +:+ ": " +:+ pct_s +:+ "% slower (within threshold)")
  else
    pct ← Py.mul_int (Py.abs change) 100;
    pct_s ← Py.format_f 1 pct;
    Ok (Improvement,
        py_str method +:+ ": " +:+ pct_s +:+ "% faster (improvement)").

(** Lines 49-73: one iteration, as the category of the branch taken and
    the message appended there. *)
Definition process_item (baseline : value) (threshold : Py.float)
    (item : value) : result (category * string) :=
  method ← item_method item;
  mean ← item_mean item;
  known ← py_contains baseline method;
  if known : bool then
    baseline_mean ← py_getitem baseline method;
    change ← compute_change mean baseline_mean;
    judge threshold method mean baseline_mean change
  else
    Ok (NewBenchmark,
        py_str method +:+ ": new benchmark (mean: " +:+
        Py.format_float 0 mean +:+ "ns)").

(** The loop, lines 48-73. *)
Fixpoint process_all (baseline : value) (threshold : Py.float)
    (items : list value) (b : buckets) : result buckets :=
  match items with
  | [] => Ok b
  | item :: rest =>
      '(c, msg) ← process_item baseline threshold item;
      process_all baseline threshold rest (append_msg b c msg)
  end.

(** Line 48: the values the loop visits. *)
Definition benchmark_entries (results : value) : result (list value) :=
  benchmarks ← py_get results "benchmarks" (VList []);
  py_iter benchmarks.

(** Lines 34-41. *)
Definition load_baseline (w : world) : IO value :=
  found ← path_exists BaselineFile (baseline_on_disk w);
  if found : bool then
    r ← open_and_load BaselineFile (baseline_on_disk w);
    match r with
    | Document d => mret d
    | Unloadable e =>
        print ("⚠️  Warning: Could not load baseline: " +:+ e);; mret (VDict ∅)
    end
  else mret (VDict ∅).

(** Lines 75-99. *)
Definition report (threshold : Py.float) (b : buckets) : IO Z :=
  print (nl +:+ rule);;
  print "BENCHMARK COMPARISON REPORT";;
  print rule;;
  (if improvements b is [] then mret tt
   else print (nl +:+ "✓ Improvements/Within Threshold:");;
        print_each (improvements b));;
  (if new_benchmarks b is [] then mret tt
   else print (nl +:+ "+ New Benchmarks:");;
        print_each (new_benchmarks b));;
  if regressions b is [] then
    print (nl +:+ "✓ All benchmarks within acceptable threshold");;
    print (rule +:+ nl);;
    mret 0
  else
    pct ← lift (Py.mul_int (Py.NFloat threshold) 100);
    pct_s ← lift (Py.format_f 0 pct);
    print (nl +:+ "❌ REGRESSIONS DETECTED (> " +:+ pct_s +:+ "% threshold):");;
    print_each (regressions b);;
    print (nl +:+ rule);;
    mret 1.

(** [main] from line 19 on; the arguments parsed in lines 13-17 are part
    of the [world]. *)
Definition main (w : world) : IO Z :=
  found ← path_exists ResultsFile (results_on_disk w);
  if negb found then
    print ("❌ Benchmark results file not found: " +:+ results_file w);;
    mret 1
  else
    r ← open_and_load ResultsFile (results_on_disk w);
    match r with
    | Unloadable e =>
        print ("❌ Failed to load results: " +:+ e);;
        mret 1
    | Document results =>
        baseline ← load_baseline w;
        items ← lift (benchmark_entries results);
        b ← lift (process_all baseline (regression_threshold w) items empty_buckets);
        report (regression_threshold w) b
    end.

(** A run from a fresh console. *)
Definition run (w : world) : console * result Z :=
  main w {| stdout := []; fs_log := [] |}.

(** ** Vocabulary of the properties *)

(** The table the loop looks methods up in: the loaded document, or the
    initial [{}] when the file is absent or does not load. *)
Definition baseline_table (w : world) : value :=
  match baseline_on_disk w with
  | Some (Document d) => d
  | _ => VDict ∅
  end.

(** A baseline entry the arithmetic of lines 54-62 accepts: a number, and
    if an int, one that [float] can hold. *)
Definition usable_baseline_mean (v : value) : Prop :=
  ∃ n, as_number v = Some n ∧ returns (Py.as_float n).

(** A benchmark entry of the shape the results document is documented to
    have: an object; a [method], or none, that the membership test of
    line 52 accepts (against a table that is an object: a string, another
    scalar, or absent); a [mean] that [float()] accepts, or absent; and,
    where the method is found, a baseline entry that line 53 yields and
    that is usable. *)
Definition well_formed_item (baseline : value) (item : value) : Prop :=
  ∃ d, item = VDict d ∧
    returns (py_contains baseline (default VNone (d !! "method"))) ∧
    returns (py_float (default (VInt 0) (d !! "mean"))) ∧
    (py_contains baseline (default VNone (d !! "method")) = Ok true →
     ∃ v, py_getitem baseline (default VNone (d !! "method")) = Ok v ∧
          usable_baseline_mean v).

(** The baseline entry of the item: what lines 52-53 find for its method.
    In a table that is an object this is the value under the key
    [method], when [method] is a string and a key of the table. *)
Definition baseline_entry (baseline : value) (item : value) : option value :=
  match item_method item with
  | Ok method =>
      match py_contains baseline method with
      | Ok true =>
          match py_getitem baseline method with
          | Ok v => Some v
          | Raise _ => None
          end
      | _ => None
      end
  | Raise _ => None
  end.

(** The category each branch of lines 59-71 stands for. *)
Definition verdict (threshold : Py.float) (change : Py.number) : category :=
  if Py.gt change (Py.NFloat threshold) then Regression
  else if Py.gt change (Py.NInt 0) then SlowerWithinThreshold
  else Improvement.

(** The category as a function of the three things the specification
    names: the entry's mean, its baseline lookup and the threshold. *)
Definition category_for (threshold : Py.float) (mean : Py.float)
    (lookup : option value) : option category :=
  match lookup with
  | None => Some NewBenchmark
  | Some v =>
      match compute_change mean v with
      | Ok change => Some (verdict threshold change)
      | Raise _ => None
      end
  end.

(** The loop files the entry under category [c]. *)
Definition classified (baseline : value) (threshold : Py.float)
    (item : value) (c : category) : Prop :=
  ∃ msg, process_item baseline threshold item = Ok (c, msg).

(** [es] are the entries of [items] as the loop body files them, one by
    one and in order. *)
Definition filed (baseline : value) (threshold : Py.float)
    (items : list value) (es : list (category * string)) : Prop :=
  Forall2 (λ item e, process_item baseline threshold item = Ok e) items es.

(** The entries of a run, in input order. *)
Definition entries (w : world) : list value :=
  match results_on_disk w with
  | Some (Document results) =>
      match benchmark_entries results with
      | Ok items => items
      | Raise _ => []
      end
  | _ => []
  end.

(** A run whose results document, if it loads, has the documented shape. *)
Definition well_formed (w : world) : Prop :=
  match results_on_disk w with
  | Some (Document results) =>
      returns (benchmark_entries results) ∧
      Forall (well_formed_item (baseline_table w)) (entries w)
  | _ => True
  end.

Definition regression_detected (w : world) : Prop :=
  ∃ item, item ∈ entries w ∧
    classified (baseline_table w) (regression_threshold w) item Regression.

End Script.

(** A JSON number in the range float arithmetic takes without overflow:
    any float or bool, and an int of at most 1023 bits. *)
Definition number_in_range (v : value) : Prop :=
  match v with
  | VBool _ | VFloat _ => True
  | VInt z => Z.abs z < 2 ^ 1023
  | _ => False
  end.

(** The three lists of the report and which categories each shows. *)
Inductive heading := Regressed | WithinOrImproved | NewlyAdded.

#[global] Instance heading_eq_dec : EqDecision heading.
Proof. solve_decision. Defined.

Definition heading_of (c : category) : heading :=
  match c with
  | Regression => Regressed
  | SlowerWithinThreshold | Improvement => WithinOrImproved
  | NewBenchmark => NewlyAdded
  end.

(** The messages of the classified entries that fall under a heading, in
    the order of the entries. *)
Definition messages_under (h : heading) (es : list (category * string))
  : list string :=
  snd <$> filter (λ e, heading_of e.1 = h) es.

(** A section of the report: nothing when there is no message, else the
    header and each message on a line of its own. *)
Definition report_section (header : string) (msgs : list string) : list string :=
  match msgs with
  | [] => []
  | _ => (nl +:+ header) :: (String.append "  " <$> msgs)
  end.

(** The threshold as the regression header shows it,
    [regression_threshold * 100] with the format spec [.0f]. *)
Definition threshold_percent (threshold : Py.float) : string :=
  Py.format_float 0 (Py.fmul threshold (Py.float_of_Z 100)).

(** The report as the specification lays it out, over the classified
    entries in input order: banner; the within-threshold/improvement
    section and the new-benchmark section, each only if it has messages;
    then either the regression section, whose header names the threshold
    percentage, and a closing rule, or the closing success lines. *)
Definition specified_report (threshold : Py.float) (es : list (category * string))
  : list string :=
  [nl +:+ rule; "BENCHMARK COMPARISON REPORT"; rule] ++
  report_section "✓ Improvements/Within Threshold:" (messages_under WithinOrImproved es) ++
  report_section "+ New Benchmarks:" (messages_under NewlyAdded es) ++
  match messages_under Regressed es with
  | [] => [nl +:+ "✓ All benchmarks within acceptable threshold"; rule +:+ nl]
  | regs =>
      report_section
        ("❌ REGRESSIONS DETECTED (> " +:+ threshold_percent threshold +:+ "% threshold):")
        regs ++
      [nl +:+ rule]
  end.

(** The warning of line 41, when the baseline file exists and does not
    load. *)
Definition baseline_warning (w : world) : list string :=
  match baseline_on_disk w with
  | Some (Unloadable e) => ["⚠️  Warning: Could not load baseline: " +:+ e]
  | _ => []
  end.

(** The file-system calls of lines 36-39. *)
Definition baseline_calls (w : world) : list fs_event :=
  Probe BaselineFile ::
  match baseline_on_disk w with
  | Some _ => [Open BaselineFile]
  | None => []
  end.

(** The same invocation with no file at the baseline path. *)
Definition without_baseline (w : world) : world :=
  {| results_file := results_file w;
     regression_threshold := regression_threshold w;
     results_on_disk := results_on_disk w;
     baseline_on_disk := None |}.

(** What lines 76-98 print for given lists. *)
Definition report_lines (threshold : Py.float) (b : buckets) : list string :=
  [nl +:+ rule; "BENCHMARK COMPARISON REPORT"; rule] ++
  report_section "✓ Improvements/Within Threshold:" (improvements b) ++
  report_section "+ New Benchmarks:" (new_benchmarks b) ++
  match regressions b with
  | [] => [nl +:+ "✓ All benchmarks within acceptable threshold"; rule +:+ nl]
  | regs =>
      report_section
        ("❌ REGRESSIONS DETECTED (> " +:+ threshold_percent threshold +:+ "% threshold):")
        regs ++
      [nl +:+ rule]
  end.

(** ** Concrete inputs

    The documents below hold no string-valued [mean] and no [method] that
    is a float or a container, so a run on them calls neither of the two
    builtins; [unused_float_of_str] and [unused_repr] only fill the two
    parameters. *)
Definition unused_float_of_str : string → option Py.float := λ _, None.
Definition unused_repr : value → string := λ _, "".

(** [{"method": m, "mean": z}] *)
Definition entry (m : string) (z : Z) : value :=
  VDict (<["method" := VStr m]> (<["mean" := VInt z]> ∅)).

(** [{"benchmarks": [...]}] *)
Definition results_doc (items : list value) : value :=
  VDict {[ "benchmarks" := VList items ]}.

(** The default threshold 0.10, as the double nearest to 1/10. *)
Definition threshold_default : Py.float :=
  Py.fdiv (Py.float_of_Z 1) (Py.float_of_Z 10).

(** [{"foo": 100}] and [{"foo": 0}], as tables and as the documents that
    hold them. *)
Definition table_foo : gmap string value := {[ "foo" := VInt 100 ]}.
Definition table_zero : gmap string value := {[ "foo" := VInt 0 ]}.
Definition baseline_foo : value := VDict table_foo.
Definition baseline_zero : value := VDict table_zero.

(** [{"method": "foo", "mean": null}] *)
Definition null_mean_entry : value :=
  VDict {[ "method" := VStr "foo"; "mean" := VNone ]}.

(** The threshold [-0.5]. *)
Definition minus_half : Py.float :=
  Py.fdiv (Py.float_of_Z (-1)) (Py.float_of_Z 2).

(** An invocation whose two files both load. *)
Definition invocation (threshold : Py.float) (baseline : value)
    (items : list value) : world :=
  {| results_file := "results.json";
     regression_threshold := threshold;
     results_on_disk := Some (Document (results_doc items));
     baseline_on_disk := Some (Document baseline) |}.

(** An invocation whose baseline file exists and is not JSON. *)
Definition broken_baseline_run : world :=
  {| results_file := "results.json";
     regression_threshold := threshold_default;
     results_on_disk := Some (Document (results_doc [entry "foo" 105]));
     baseline_on_disk := Some (Unloadable "Expecting value: line 1 column 1 (char 0)") |}.

(** An invocation whose baseline file holds the JSON array [[5]], on an
    entry whose method is the number 5. *)
Definition list_baseline_run : world :=
  {| results_file := "results.json";
     regression_threshold := threshold_default;
     results_on_disk :=
       Some (Document (results_doc [VDict {[ "method" := VInt 5; "mean" := VInt 1 ]}]));
     baseline_on_disk := Some (Document (VList [VInt 5])) |}.

(** An invocation whose results path does not exist. *)
Definition missing_results_run : world :=
  {| results_file := "results.json";
     regression_threshold := threshold_default;
     results_on_disk := None;
     baseline_on_disk := Some (Document baseline_foo) |}.

(** ** Vocabulary of the further properties *)

(** [a <= b] on floats. *)
Definition float_leb : Py.float → Py.float → bool := SFleb.

(** The four file-system calls a run can make, in the order of the
    script. *)
Definition all_calls : list fs_event :=
  [Probe ResultsFile; Open ResultsFile; Probe BaselineFile; Open BaselineFile].

(** The same invocation on another list of entries, on another
    threshold, and on another baseline table. *)
Definition with_entries (w : world) (items : list value) : world :=
  {| results_file := results_file w;
     regression_threshold := regression_threshold w;
     results_on_disk := Some (Document (results_doc items));
     baseline_on_disk := baseline_on_disk w |}.

Definition with_threshold (w : world) (threshold : Py.float) : world :=
  {| results_file := results_file w;
     regression_threshold := threshold;
     results_on_disk := results_on_disk w;
     baseline_on_disk := baseline_on_disk w |}.

Definition with_baseline (w : world) (baseline : value) : world :=
  {| results_file := results_file w;
     regression_threshold := regression_threshold w;
     results_on_disk := results_on_disk w;
     baseline_on_disk := Some (Document baseline) |}.

(** An entry as the file format documents it: an object with a string
    [method] and a numeric [mean], against a baseline that is an object
    and whose entry for the method, if any, is numeric. *)
Definition documented_entry (baseline : value) (item : value) : Prop :=
  ∃ d s m table, item = VDict d ∧
    d !! "method" = Some (VStr s) ∧
    d !! "mean" = Some m ∧
    number_in_range m ∧
    baseline = VDict table ∧
    ∀ v, table !! s = Some v → number_in_range v.

(** The report of a run with no entry at all. *)
Definition empty_report : list string :=
  [nl +:+ rule; "BENCHMARK COMPARISON REPORT"; rule;
   nl +:+ "✓ All benchmarks within acceptable threshold"; rule +:+ nl].

Section FurtherVocabulary.

Variable float_of_str : string → option Py.float.
Variable py_repr : value → string.

(** The entry makes the run fail: its iteration raises, or files it as a
    Regression. *)
Definition fails (baseline : value) (threshold : Py.float)
    (item : value) : Prop :=
  raises (process_item float_of_str py_repr baseline threshold item) ∨
  classified float_of_str py_repr baseline threshold item Regression.

End FurtherVocabulary.

(** * Facts about binary64 and the conversion from [int] *)

Module PyFacts.
Import Py.

(** A number with [d] binary digits is at least [2^(d-1)]. *)
Lemma digits2_pos_lower (p : positive) :
  2 ^ (Zpos (digits2_pos p) - 1) ≤ Zpos p.
Proof.
  induction p as [p IH|p IH|]; cbn [digits2_pos].
  - rewrite Pos2Z.inj_succ, Z.sub_1_r, Z.pred_succ.
    replace (Zpos (digits2_pos p)) with (Z.succ (Zpos (digits2_pos p) - 1)) by lia.
    rewrite Z.pow_succ_r by lia. lia.
  - rewrite Pos2Z.inj_succ, Z.sub_1_r, Z.pred_succ.
    replace (Zpos (digits2_pos p)) with (Z.succ (Zpos (digits2_pos p) - 1)) by lia.
    rewrite Z.pow_succ_r by lia. lia.
  - reflexivity.
Qed.

Lemma shr_1_halves (r : shr_record) :
  0 ≤ shr_m r → shr_m (shr_1 r) = Z.shiftr (shr_m r) 1.
Proof.
  destruct r as [m rb sb]. cbn [shr_m]. intros Hm.
  rewrite <- Z.div2_spec.
  destruct m as [|[p|p|]|p]; try reflexivity. lia.
Qed.

Lemma iter_shr_1 (k : positive) : ∀ r,
  0 ≤ shr_m r → shr_m (SpecFloat.iter_pos shr_1 k r) = Z.shiftr (shr_m r) (Zpos k).
Proof.
  assert (Hnn : ∀ a n, 0 ≤ a → 0 ≤ Z.shiftr a n) by (intros; by apply Z.shiftr_nonneg).
  induction k as [k IH|k IH|]; intros r Hr; cbn [SpecFloat.iter_pos].
  - assert (0 ≤ shr_m (shr_1 r)) by (rewrite shr_1_halves; auto).
    rewrite !IH, shr_1_halves, !Z.shiftr_shiftr; rewrite ?IH; auto; try lia.
    f_equal; lia.
  - rewrite !IH, Z.shiftr_shiftr; rewrite ?IH; auto; try lia. f_equal; lia.
  - by apply shr_1_halves.
Qed.

(** Dropping fewer bits than the number has leaves a positive number. *)
Lemma shiftr_keeps_positive (p : positive) (n : Z) :
  0 ≤ n < Zpos (digits2_pos p) → 0 < Z.shiftr (Zpos p) n.
Proof.
  intros [Hn Hd]. rewrite Z.shiftr_div_pow2 by done.
  apply Z.div_str_pos. split; [by apply Z.pow_pos_nonneg|].
  etrans; [|apply digits2_pos_lower].
  apply Z.pow_le_mono_r; lia.
Qed.

(** The digit count is the binary logarithm plus one. *)
Lemma Zdigits2_log2 (p : positive) : Zpos (digits2_pos p) = Z.log2 (Zpos p) + 1.
Proof.
  destruct p as [p|p|]; cbn [digits2_pos Z.log2]; try done.
  all: rewrite Pos2Z.inj_succ; f_equal; f_equal.
  all: induction p as [p IH|p IH|]; cbn; by rewrite ?IH.
Qed.

(** The first rounding step: what is left of a positive mantissa is
    positive, the exponent is raised to the one the format imposes, and
    mantissa digits plus exponent are unchanged. *)
Lemma shr_fexp_shape (m : positive) (e : Z) (l : location) :
  emin prec emax ≤ e →
  ∃ m' : positive,
    shr_m (shr_fexp prec emax (Zpos m) e l).1 = Zpos m' ∧
    (shr_fexp prec emax (Zpos m) e l).2 =
      Z.max e (fexp prec emax (Zpos (digits2_pos m) + e)) ∧
    Zpos (digits2_pos m') + (shr_fexp prec emax (Zpos m) e l).2 =
      Zpos (digits2_pos m) + e.
Proof.
  intros He. unfold shr_fexp, shr, fexp. cbn [Zdigits2].
  assert (Hm : shr_m (shr_record_of_loc (Zpos m) l) = Zpos m)
    by (by destruct l as [|[]]).
  destruct (Z.max _ _ - e) as [|k|k] eqn:Hk; cbn [fst snd]; rewrite ?Hm.
  - exists m. lia.
  - rewrite iter_shr_1, Hm by (rewrite Hm; lia).
    assert (Hlt : Zpos k < Zpos (digits2_pos m)) by (unfold prec in *; lia).
    pose proof (shiftr_keeps_positive m (Zpos k) ltac:(lia)) as Hpos.
    destruct (Z.shiftr (Zpos m) (Zpos k)) as [|m'|m'] eqn:Hs; try lia.
    exists m'. split; [done|]. split; [lia|].
    rewrite (Zdigits2_log2 m'), <- Hs, Z.log2_shiftr by lia.
    rewrite (Zdigits2_log2 m) in *. lia.
  - exists m. lia.
Qed.

(** Rounding to nearest adds at most one digit. *)
Lemma round_nearest_even_digits (m : positive) (l : location) :
  ∃ m' : positive,
    round_nearest_even (Zpos m) l = Zpos m' ∧
    Zpos (digits2_pos m') ≤ Zpos (digits2_pos m) + 1.
Proof.
  assert (Hsucc : ∃ m' : positive, Zpos m + 1 = Zpos m' ∧
            Zpos (digits2_pos m') ≤ Zpos (digits2_pos m) + 1).
  { exists (m + 1)%positive. split; [lia|].
    rewrite !Zdigits2_log2, Pos2Z.inj_add.
    pose proof (Z.log2_succ_le (Zpos m)) as H. rewrite <- !Z.add_1_r in H. lia. }
  assert (Hsame : ∃ m' : positive, Zpos m = Zpos m' ∧
            Zpos (digits2_pos m') ≤ Zpos (digits2_pos m) + 1)
    by (exists m; lia).
  destruct l as [|[]]; cbn [round_nearest_even]; try done.
  by destruct (Z.even _).
Qed.

Lemma shr_fexp_positive (m : positive) (e : Z) (l : location) :
  emin prec emax ≤ e →
  0 < shr_m (shr_fexp prec emax (Zpos m) e l).1 ∧
  emin prec emax ≤ (shr_fexp prec emax (Zpos m) e l).2.
Proof.
  intros He. destruct (shr_fexp_shape m e l He) as (m' & -> & -> & _). lia.
Qed.

Lemma round_nearest_even_positive (m : Z) (l : location) :
  0 < m → 0 < round_nearest_even m l.
Proof.
  intros Hm. destruct l as [|[]]; cbn; try lia. destruct (Z.even m); lia.
Qed.

(** Rounding a positive mantissa at an exponent in range never gives a
    zero or a NaN. *)
Lemma binary_round_aux_nonzero (s : bool) (m : positive) (e : Z) (l : location) :
  emin prec emax ≤ e →
  match binary_round_aux prec emax s (Zpos m) e l with
  | S754_finite _ _ _ | S754_infinity _ => True
  | _ => False
  end.
Proof.
  intros He. unfold binary_round_aux.
  destruct (shr_fexp_positive m e l He) as [Hpos He'].
  destruct (shr_fexp prec emax (Zpos m) e l) as [r1 e1]. cbn [fst snd] in *.
  pose proof (round_nearest_even_positive _ (loc_of_shr_record r1) Hpos) as Hr.
  destruct (round_nearest_even _ _) as [|m1|m1]; try lia.
  destruct (shr_fexp_positive m1 e1 loc_Exact He') as [Hpos2 _].
  destruct (shr_fexp prec emax (Zpos m1) e1 loc_Exact) as [r2 e2]. cbn [fst snd] in *.
  destruct (shr_m r2); try lia. by destruct (_ <=? _).
Qed.

Lemma binary_round_nonzero (s : bool) (m : positive) :
  match binary_round prec emax s m 0 with
  | S754_finite _ _ _ | S754_infinity _ => True
  | _ => False
  end.
Proof.
  unfold binary_round, shl_align.
  destruct (fexp prec emax _ - 0) as [|d|d] eqn:Hd;
    apply binary_round_aux_nonzero; unfold fexp, emin, prec, emax; lia.
Qed.

(** [float(z)] of a non-zero int is not a zero. *)
Lemma float_of_Z_nonzero (z : Z) :
  z ≠ 0 → feqb (float_of_Z z) fzero = false.
Proof.
  intros Hz. unfold float_of_Z, binary_normalize.
  destruct z as [|p|p]; [done| |].
  - pose proof (binary_round_nonzero false p) as H.
    destruct (binary_round _ _ _ _ _) as [|[]| |[]]; done.
  - pose proof (binary_round_nonzero true p) as H.
    destruct (binary_round _ _ _ _ _) as [|[]| |[]]; done.
Qed.

(** Rounding gives a finite number when the exponent has room for one more
    digit. *)
Lemma binary_round_aux_finite (s : bool) (m : positive) (e : Z) (l : location) :
  emin prec emax ≤ e →
  Z.max e (fexp prec emax (Zpos (digits2_pos m) + e + 1)) ≤ emax - prec →
  ∃ m' e', binary_round_aux prec emax s (Zpos m) e l = S754_finite s m' e'.
Proof.
  intros He Hroom. unfold binary_round_aux.
  destruct (shr_fexp_shape m e l He) as (m1 & Hm1 & He1 & Hd1).
  destruct (shr_fexp prec emax (Zpos m) e l) as [r1 e1]. cbn [fst snd] in *.
  rewrite Hm1.
  destruct (round_nearest_even_digits m1 (loc_of_shr_record r1)) as (m2 & -> & Hd2).
  assert (He1' : emin prec emax ≤ e1) by (subst e1; lia).
  destruct (shr_fexp_shape m2 e1 loc_Exact He1') as (m3 & Hm3 & He3 & _).
  destruct (shr_fexp prec emax (Zpos m2) e1 loc_Exact) as [r3 e3]. cbn [fst snd] in *.
  rewrite Hm3.
  assert (e3 ≤ emax - prec) as ->%Z.leb_le; [|by eauto].
  subst e3 e1. unfold fexp, emin, prec, emax in *. lia.
Qed.

Lemma digits2_pos_iter_xO (p k : positive) :
  Zpos (digits2_pos (Pos.iter xO p k)) = Zpos (digits2_pos p) + Zpos k.
Proof.
  induction k as [|k IH] using Pos.peano_ind.
  - cbn. lia.
  - rewrite Pos.iter_succ. cbn [digits2_pos]. lia.
Qed.

(** An int of at most 1023 bits converts to a finite float. *)
Lemma int_to_float_returns (z : Z) :
  Z.abs z < 2 ^ 1023 → returns (int_to_float z).
Proof.
  intros Hz. unfold int_to_float, float_of_Z, binary_normalize.
  assert (Hround : ∀ s p, Zpos p < 2 ^ 1023 →
            ∃ m' e', binary_round prec emax s p 0 = S754_finite s m' e').
  { intros s p Hp.
    assert (Hd : Zpos (digits2_pos p) ≤ 1023).
    { rewrite Zdigits2_log2. apply Z.log2_lt_pow2 in Hp; lia. }
    unfold binary_round, shl_align.
    destruct (fexp prec emax _ - 0) as [|d|d] eqn:Hshift.
    - apply binary_round_aux_finite; unfold fexp, emin, prec, emax in *; lia.
    - apply binary_round_aux_finite; unfold fexp, emin, prec, emax in *; lia.
    - apply binary_round_aux_finite; rewrite ?digits2_pos_iter_xO;
        unfold fexp, emin, prec, emax in *; lia. }
  destruct z as [|p|p].
  - by eexists.
  - destruct (Hround false p) as (m' & e' & ->); [lia|by eexists].
  - destruct (Hround true p) as (m' & e' & ->); [lia|by eexists].
Qed.

(** *** Comparisons *)

(** Comparing the int [0] with a float is the float comparison with
    [0.0]. *)
Lemma Z_compare_float_zero (f : float) :
  Z_compare_float 0 f = SFcompare fzero f.
Proof.
  destruct f as [s|s| |s m e]; cbn; try done.
  destruct (Z.leb_spec 0 e) as [He|He]; destruct s; f_equal;
    rewrite ?Z.mul_0_l; try done.
  - assert (0 < 2 ^ e) by (apply Z.pow_pos_nonneg; lia).
    destruct (Z.neg m * 2 ^ e) eqn:E; try done; nia.
  - assert (0 < 2 ^ e) by (apply Z.pow_pos_nonneg; lia).
    destruct (Z.pos m * 2 ^ e) eqn:E; try done; nia.
Qed.

Lemma gt_float_zero (c : float) : gt (NFloat c) (NInt 0) = fltb fzero c.
Proof. unfold gt, fltb, SFltb. by rewrite Z_compare_float_zero. Qed.

Lemma gt_zero_float (t : float) : gt (NInt 0) (NFloat t) = fltb t fzero.
Proof.
  unfold gt, fltb, SFltb. rewrite Z_compare_float_zero.
  by destruct t as [[]|[]| |[] m e].
Qed.

(** Floats that compare equal are not ordered, and lie on the same side
    of zero. *)
Lemma feqb_not_fltb (c t : float) : feqb c t = true → fltb t c = false.
Proof.
  unfold feqb, fltb, SFeqb, SFltb.
  destruct c as [[]|[]| |[] m1 e1], t as [[]|[]| |[] m2 e2]; cbn; try done.
  all: change (Pos.compare_cont Eq m1 m2) with (m1 ?= m2)%positive.
  all: change (Pos.compare_cont Eq m2 m1) with (m2 ?= m1)%positive.
  all: destruct (Z.compare_spec e1 e2); try done.
  all: destruct (Pos.compare_spec m1 m2); try done.
  all: subst; by rewrite Z.compare_refl, Pos.compare_refl.
Qed.

Lemma feqb_same_sign (c t : float) :
  feqb c t = true → fltb fzero c = fltb fzero t.
Proof.
  unfold feqb, fltb, SFeqb, SFltb.
  by destruct c as [[]|[]| |[] m1 e1], t as [[]|[]| |[] m2 e2].
Qed.

(** A number above [0] is not equal to [0], before and after conversion. *)
Lemma positive_not_zero (n : number) :
  gt n (NInt 0) = true → eq_zero n = false.
Proof.
  destruct n as [z|f]; cbn.
  - intros ?%Z.ltb_lt. apply Z.eqb_neq. lia.
  - rewrite Z_compare_float_zero. by destruct f as [[]|[]| |[] m e].
Qed.

Lemma as_float_nonzero (n : number) (f : float) :
  eq_zero n = false → as_float n = Ok f → feqb f fzero = false.
Proof.
  destruct n as [z|g]; cbn.
  - intros Hz%Z.eqb_neq. unfold int_to_float.
    pose proof (float_of_Z_nonzero z Hz).
    destruct (float_of_Z z); intros [= <-]; done.
  - by intros ? [= <-].
Qed.

End PyFacts.

(** * The script: how one entry is processed *)

Section Entries.

Variable float_of_str : string → option Py.float.
Variable py_repr : value → string.

#[local] Abbreviation py_float := (py_float float_of_str).
#[local] Abbreviation py_str := (py_str py_repr).
#[local] Abbreviation item_mean := (item_mean float_of_str).
#[local] Abbreviation judge := (judge py_repr).
#[local] Abbreviation process_item := (process_item float_of_str py_repr).
#[local] Abbreviation well_formed_item := (well_formed_item float_of_str).
#[local] Abbreviation classified := (classified float_of_str py_repr).

Implicit Types (baseline : value) (table d : gmap string value).
Implicit Types (t mean : Py.float) (item v key : value) (c : category).

Lemma item_fields d :
  item_method (VDict d) = Ok (default VNone (d !! "method")) ∧
  item_mean (VDict d) = py_float (default (VInt 0) (d !! "mean")).
Proof. done. Qed.

Lemma percent_of_float (f : Py.float) :
  Py.mul_int (Py.NFloat f) 100 = Ok (Py.NFloat (Py.fmul f (Py.float_of_Z 100))).
Proof. reflexivity. Qed.

(** With a change that is the int [0] or a float, and a baseline entry that
    formats, every branch builds its message. *)
Lemma judge_returns t method mean v change :
  usable_baseline_mean v →
  change = Py.NInt 0 ∨ (∃ f, change = Py.NFloat f) →
  ∃ msg, judge t method mean v change = Ok (verdict t change, msg).
Proof.
  intros (n & Hn & f & Hf) Hchange. unfold judge, verdict.
  assert (Hfmt : ∃ s, py_format_f 0 v = Ok s).
  { unfold py_format_f, Py.format_f. rewrite Hn, Hf.
    destruct v; try done; by eexists. }
  destruct Hfmt as [s Hs].
  destruct Hchange as [->|[g ->]].
  - destruct (Py.gt _ (Py.NFloat t)); [|destruct (Py.gt _ (Py.NInt 0))];
      cbn; rewrite ?Hs; cbn; by eexists.
  - destruct (Py.gt _ (Py.NFloat t)); [|destruct (Py.gt _ (Py.NInt 0))];
      cbn [Py.abs]; rewrite !percent_of_float; cbn; rewrite ?Hs; cbn; by eexists.
Qed.

(** Lines 54-57 on a usable baseline entry: no exception, and the change
    is the int [0] or the rounded quotient. *)
Lemma compute_change_returns mean v n :
  as_number v = Some n → returns (Py.as_float n) →
  (Py.eq_zero n = true ∧ compute_change mean v = Ok (Py.NInt 0)) ∨
  (Py.eq_zero n = false ∧ ∃ b, Py.as_float n = Ok b ∧
     compute_change mean v = Ok (Py.NFloat (Py.fdiv (Py.fsub mean b) b))).
Proof.
  intros Hn [b Hb]. unfold compute_change, py_eq_zero, py_sub, py_truediv.
  rewrite Hn. destruct (Py.eq_zero n) eqn:Hz; [by left|right].
  split; [done|]. exists b. split; [done|].
  unfold Py.float_sub, Py.float_truediv. rewrite Hb. cbn.
  by rewrite (PyFacts.as_float_nonzero n b Hz Hb).
Qed.

(** Lines 52-53 on a table that is an object: the membership test holds
    exactly of the strings that are keys, and the lookup then yields the
    value under the key. *)
Lemma table_contains table key :
  py_contains (VDict table) key = Ok true ↔
  ∃ s v, key = VStr s ∧ table !! s = Some v.
Proof.
  unfold py_contains. destruct key as [| | | |s| |]; cbn;
    try (split; [done|by intros (? & ? & ? & _)]).
  split.
  - intros [= [v Hv]%bool_decide_eq_true]. by exists s, v.
  - intros (s' & v & [= <-] & Hv). by rewrite bool_decide_eq_true_2.
Qed.

Lemma table_lookup table s v :
  table !! s = Some v →
  py_contains (VDict table) (VStr s) = Ok true ∧
  py_getitem (VDict table) (VStr s) = Ok v.
Proof.
  intros Hv. split; [apply table_contains; eauto|]. cbn. by rewrite Hv.
Qed.

Lemma table_contains_returns table key :
  returns (py_contains (VDict table) key) ↔ hashable key = true.
Proof.
  unfold py_contains. destruct (hashable key); [|split; [by intros [? ?]|done]].
  split; [done|]. intros _. by eexists.
Qed.

(** The baseline entry of an item in a table that is an object. *)
Lemma baseline_entry_table table d :
  baseline_entry (VDict table) (VDict d) =
    match d !! "method" with
    | Some (VStr s) => table !! s
    | _ => None
    end.
Proof.
  unfold baseline_entry. destruct (item_fields d) as [-> _].
  destruct (d !! "method") as [[| | | |s| |]|]; try done. cbn.
  destruct (table !! s) as [v|] eqn:Hv.
  - by rewrite bool_decide_eq_true_2.
  - by rewrite bool_decide_eq_false_2 by (by intros [? ?]).
Qed.

(** The membership test of line 52 raises nothing but TypeError; and once
    it holds, the lookup of line 53 raises no KeyError: TypeError for a
    key that is no index of a list or a str, IndexError for an index
    outside a list. *)
Lemma py_contains_exn baseline key e :
  py_contains baseline key = Raise e → e = TypeError.
Proof.
  unfold py_contains. destruct baseline as [| | | |hay|l|table]; try by intros [= <-].
  - by destruct key; intros [= <-].
  - by destruct (hashable key); intros [= <-].
Qed.

Lemma py_getitem_exn baseline key e :
  py_contains baseline key = Ok true →
  py_getitem baseline key = Raise e →
  e = TypeError ∨ (e = IndexError ∧ ∃ l, baseline = VList l).
Proof.
  destruct baseline as [| | | |hay|l|table]; try done.
  - destruct key; try done. intros _ [= <-]. by left.
  - intros _. unfold py_getitem, sequence_item.
    destruct key; try (intros [= <-]; by left);
      destruct (if _ <? 0 then None else _); intros [= <-]; right; eauto.
  - intros (s & v & -> & Hv)%table_contains. cbn. by rewrite Hv.
Qed.

(** An entry whose method is found in the table. *)
Lemma process_item_found baseline t d v mean :
  py_contains baseline (default VNone (d !! "method")) = Ok true →
  py_getitem baseline (default VNone (d !! "method")) = Ok v →
  item_mean (VDict d) = Ok mean →
  process_item baseline t (VDict d) =
    (change ← compute_change mean v;
     judge t (default VNone (d !! "method")) mean v change).
Proof.
  intros Hin Hv Hmean. unfold process_item.
  rewrite Hmean. destruct (item_fields d) as [-> _]. cbn [mbind result_bind].
  by rewrite Hin, Hv.
Qed.

(** An entry whose method is a key of a table that is an object. *)
Lemma process_item_known table t d s v mean :
  d !! "method" = Some (VStr s) → table !! s = Some v →
  item_mean (VDict d) = Ok mean →
  process_item (VDict table) t (VDict d) =
    (change ← compute_change mean v; judge t (VStr s) mean v change).
Proof.
  intros Hm Hv Hmean. destruct (table_lookup table s v Hv) as [Hin Hget].
  rewrite (process_item_found (VDict table) t d v mean); rewrite ?Hm; done.
Qed.

(** An entry whose method is not found in the table. *)
Lemma process_item_unknown baseline t d mean :
  py_contains baseline (default VNone (d !! "method")) = Ok false →
  item_mean (VDict d) = Ok mean →
  process_item baseline t (VDict d) =
    Ok (NewBenchmark,
        py_str (default VNone (d !! "method")) +:+ ": new benchmark (mean: " +:+
        Py.format_float 0 mean +:+ "ns)").
Proof.
  intros Hin Hmean. unfold process_item.
  rewrite Hmean. destruct (item_fields d) as [-> _]. cbn [mbind result_bind].
  by rewrite Hin.
Qed.

(** The baseline entry of a well-formed item is what line 53 yields, and
    there is none exactly when line 52 does not find the method. *)
Lemma well_formed_item_entry baseline d :
  well_formed_item baseline (VDict d) →
  (∃ v, py_contains baseline (default VNone (d !! "method")) = Ok true ∧
        py_getitem baseline (default VNone (d !! "method")) = Ok v ∧
        usable_baseline_mean v ∧
        baseline_entry baseline (VDict d) = Some v) ∨
  (py_contains baseline (default VNone (d !! "method")) = Ok false ∧
   baseline_entry baseline (VDict d) = None).
Proof.
  intros (d' & [= <-] & [known Hin] & _ & Hbase).
  unfold baseline_entry. destruct (item_fields d) as [-> _]. rewrite Hin.
  destruct known; [left|by right].
  destruct (Hbase Hin) as (v & Hv & Hu). exists v. by rewrite Hv.
Qed.

(** A well-formed entry is always filed, under exactly the category its
    own fields, its baseline entry and the threshold determine. *)
Lemma process_item_total baseline t item :
  well_formed_item baseline item → ∃ c msg, process_item baseline t item = Ok (c, msg).
Proof.
  intros Hwf. pose proof Hwf as (d & -> & _ & [mean Hmean] & _).
  destruct (item_fields d) as [_ Hm]. rewrite <- Hm in Hmean.
  destruct (well_formed_item_entry baseline d Hwf)
    as [(v & Hin & Hv & Hu & _)|[Hin _]].
  - rewrite (process_item_found baseline t d v mean Hin Hv Hmean).
    destruct (Hu) as (n & Hn & Hf).
    destruct (compute_change_returns mean v n Hn Hf) as [[_ Hc]|(_ & b & _ & Hc)];
      rewrite Hc; cbn.
    + edestruct (judge_returns t (default VNone (d !! "method")) mean v)
        as [msg ->]; eauto.
    + edestruct (judge_returns t (default VNone (d !! "method")) mean v)
        as [msg ->]; eauto.
  - rewrite (process_item_unknown baseline t d mean Hin Hmean). eauto.
Qed.

(** Against a table that is an object, an entry is well formed when its
    method can be hashed, [float()] accepts its mean, and the value under
    the method, if there is one, is usable. *)
Lemma well_formed_item_table table d :
  hashable (default VNone (d !! "method")) = true →
  returns (py_float (default (VInt 0) (d !! "mean"))) →
  (∀ s v, d !! "method" = Some (VStr s) → table !! s = Some v →
          usable_baseline_mean v) →
  well_formed_item (VDict table) (VDict d).
Proof.
  intros Hh Hmean Hbase. exists d. split; [done|].
  split; [by apply table_contains_returns|]. split; [done|].
  intros (s & v & Hkey & Hv)%table_contains. exists v.
  destruct (d !! "method") as [m|] eqn:Hm; cbn in Hkey |- *; [|done].
  subst m. split; [by apply table_lookup|by apply (Hbase s)].
Qed.

(** An entry of the documented shape, a string [method] and a numeric
    [mean], against a table of numbers, is well formed. *)
Lemma documented_shape_well_formed table d s m :
  d !! "method" = Some (VStr s) →
  d !! "mean" = Some m →
  number_in_range m →
  (∀ v, table !! s = Some v → number_in_range v) →
  well_formed_item (VDict table) (VDict d).
Proof.
  intros Hmethod Hmean Hm Hbase. apply well_formed_item_table.
  - by rewrite Hmethod.
  - rewrite Hmean. cbn [default].
    destruct m as [|b|z|f| | |]; try done; cbn; [by eexists| |by eexists].
    by apply PyFacts.int_to_float_returns.
  - rewrite Hmethod. intros s' v [= <-] Hv. specialize (Hbase v Hv).
    destruct v as [|b|z|f| | |]; try done.
    + exists (Py.NInt (Z.b2z b)). split; [done|].
      apply PyFacts.int_to_float_returns. destruct b; cbn; lia.
    + exists (Py.NInt z). split; [done|]. by apply PyFacts.int_to_float_returns.
    + exists (Py.NFloat f). split; [done|]. by eexists.
Qed.

End Entries.

(** * The script: the loop, the report and a whole run *)

Section Runs.

Variable float_of_str : string → option Py.float.
Variable py_repr : value → string.

#[local] Abbreviation process_item := (process_item float_of_str py_repr).
#[local] Abbreviation process_all := (process_all float_of_str py_repr).
#[local] Abbreviation well_formed_item := (well_formed_item float_of_str).
#[local] Abbreviation main := (main float_of_str py_repr).
#[local] Abbreviation run := (run float_of_str py_repr).
#[local] Abbreviation filed := (filed float_of_str py_repr).

Implicit Types (baseline : value) (t : Py.float).
Implicit Types (items : list value) (es : list (category * string)).
Implicit Types (b : buckets) (c : console) (w : world).

Lemma process_all_filed baseline t items es :
  filed baseline t items es →
  ∀ b, process_all baseline t items b = Ok (foldl place b es).
Proof.
  induction 1 as [|item [c msg] items es Hitem _ IH]; intros b; cbn; [done|].
  rewrite Hitem. cbn. apply IH.
Qed.

(** Conversely, a loop that completes has filed every item. *)
Lemma process_all_returns baseline t items : ∀ b b',
  process_all baseline t items b = Ok b' →
  ∃ es, filed baseline t items es ∧ b' = foldl place b es.
Proof.
  induction items as [|item items IH]; intros b b'; cbn.
  - intros [= <-]. exists []. split; [constructor|done].
  - destruct (process_item baseline t item) as [[c msg]|e] eqn:Hitem; [|done].
    cbn. intros (es & Hes & ->)%IH.
    exists ((c, msg) :: es). split; [by constructor|done].
Qed.

(** The loop raises the exception of the first iteration that raises. *)
Lemma process_all_raise baseline t items : ∀ b e,
  process_all baseline t items b = Raise e →
  ∃ item, item ∈ items ∧ process_item baseline t item = Raise e.
Proof.
  induction items as [|item items IH]; intros b e; cbn; [done|].
  destruct (process_item baseline t item) as [[c msg]|e'] eqn:Hitem; cbn.
  - intros (x & Hx & He)%IH. exists x. split; [by apply elem_of_cons; right|done].
  - intros [= <-]. exists item. split; [by apply elem_of_cons; left|done].
Qed.

Lemma process_all_raises baseline t items : ∀ b,
  raises (process_all baseline t items b) ↔
  ∃ item, item ∈ items ∧ raises (process_item baseline t item).
Proof.
  induction items as [|item items IH]; intros b; cbn.
  - split; [by intros [? ?]|]. by intros (? & ?%elem_of_nil & _).
  - destruct (process_item baseline t item) as [[c msg]|e] eqn:Hitem; cbn.
    + rewrite IH. split.
      * intros (x & Hx & Hr). exists x. split; [by apply elem_of_cons; right|done].
      * intros (x & [->|Hx]%elem_of_cons & Hr); [|by exists x].
        rewrite Hitem in Hr. by destruct Hr.
    + split; [|by exists e]. intros _. exists item.
      split; [by apply elem_of_cons; left|]. rewrite Hitem. by exists e.
Qed.

Lemma well_formed_filed baseline t items :
  Forall (well_formed_item baseline) items → ∃ es, filed baseline t items es.
Proof.
  induction 1 as [|item items Hwf _ [es IH]]; [exists []; constructor|].
  destruct (process_item_total float_of_str py_repr baseline t item Hwf) as (c & msg & H).
  exists ((c, msg) :: es). by constructor.
Qed.

(** The loop only ever appends, each message to the list of its
    heading. *)
Lemma foldl_place_lists es : ∀ b,
  regressions (foldl place b es) = regressions b ++ messages_under Regressed es ∧
  improvements (foldl place b es) = improvements b ++ messages_under WithinOrImproved es ∧
  new_benchmarks (foldl place b es) = new_benchmarks b ++ messages_under NewlyAdded es.
Proof.
  unfold messages_under.
  induction es as [|[c msg] es IH]; intros b; cbn [foldl].
  - by rewrite !app_nil_r.
  - destruct (IH (place b (c, msg))) as (-> & -> & ->).
    rewrite !filter_cons. destruct c; cbn; repeat case_decide; try done;
      by rewrite <- !app_assoc.
Qed.

(** Stepping through the [IO] monad. *)
Lemma io_step {A B} (m : IO A) (k : A → IO B) c c' (a : A) :
  m c = (c', Ok a) → (m ≫= k) c = k a c'.
Proof. intros H. unfold mbind, IO_bind. by rewrite H. Qed.

Lemma print_writes (line : string) c :
  print line c = ({| stdout := stdout c ++ [line]; fs_log := fs_log c |}, Ok tt).
Proof. done. Qed.

Lemma fs_call_logs (e : fs_event) c :
  fs_call e c = ({| stdout := stdout c; fs_log := fs_log c ++ [e] |}, Ok tt).
Proof. done. Qed.

Lemma print_each_writes (msgs : list string) : ∀ c,
  print_each msgs c =
    ({| stdout := stdout c ++ (String.append "  " <$> msgs); fs_log := fs_log c |}, Ok tt).
Proof.
  induction msgs as [|msg msgs IH]; intros c; cbn [print_each fmap list_fmap].
  - destruct c. by rewrite app_nil_r.
  - erewrite io_step by apply print_writes. rewrite IH. cbn [stdout fs_log].
    by rewrite <- app_assoc.
Qed.

Lemma section_writes (header : string) (msgs : list string) c :
  (if msgs is [] then mret tt else print (nl +:+ header);; print_each msgs) c =
    ({| stdout := stdout c ++ report_section header msgs; fs_log := fs_log c |}, Ok tt).
Proof.
  destruct msgs as [|msg msgs]; cbn [report_section].
  - destruct c. by rewrite app_nil_r.
  - erewrite io_step by apply print_writes. rewrite print_each_writes.
    cbn [stdout fs_log]. by rewrite <- app_assoc.
Qed.

(** The report of lines 75-99, and the value it returns: 1 exactly when
    there is a regression message. *)
Lemma report_writes t b c :
  report t b c =
    ({| stdout := stdout c ++ report_lines t b; fs_log := fs_log c |},
     Ok (if regressions b is [] then 0 else 1)).
Proof.
  unfold report, report_lines.
  do 3 (erewrite io_step by apply print_writes; cbn [stdout fs_log]).
  do 2 (erewrite io_step by apply section_writes; cbn [stdout fs_log]).
  destruct (regressions b) as [|r regs].
  - do 2 (erewrite io_step by apply print_writes; cbn [stdout fs_log]).
    unfold mret, IO_ret. by rewrite <- !app_assoc.
  - erewrite io_step by (unfold lift; by rewrite percent_of_float).
    erewrite io_step by reflexivity.
    erewrite io_step by apply print_writes.
    erewrite io_step by apply print_each_writes.
    erewrite io_step by apply print_writes. cbn [stdout fs_log].
    unfold mret, IO_ret, threshold_percent. cbn [report_section].
    by rewrite <- !app_assoc.
Qed.

(** On the lists the loop builds, the printed lines are the layout of the
    specification. *)
Lemma report_lines_filed t es :
  report_lines t (foldl place empty_buckets es) = specified_report t es.
Proof.
  destruct (foldl_place_lists es empty_buckets) as (Hr & Hi & Hn).
  unfold report_lines, specified_report. by rewrite Hr, Hi, Hn.
Qed.

Lemma load_baseline_loads w c :
  load_baseline w c =
    ({| stdout := stdout c ++ baseline_warning w;
        fs_log := fs_log c ++ baseline_calls w |}, Ok (baseline_table w)).
Proof.
  destruct c as [out log].
  unfold load_baseline, baseline_warning, baseline_calls, baseline_table.
  destruct (baseline_on_disk w) as [[e|d]|];
    unfold path_exists, open_and_load, mbind, IO_bind, mret, IO_ret; cbn;
    by rewrite ?app_nil_r, <- ?app_assoc.
Qed.

(** A run whose results document loads: the baseline is loaded, then the
    loop either raises, with nothing more printed, or hands its lists to
    the report. *)
Lemma run_document w results :
  results_on_disk w = Some (Document results) →
  run w =
    let c := {| stdout := baseline_warning w;
                fs_log := [Probe ResultsFile; Open ResultsFile] ++ baseline_calls w |} in
    match items ← benchmark_entries results;
          process_all (baseline_table w) (regression_threshold w) items empty_buckets
    with
    | Ok b =>
        ({| stdout := stdout c ++ report_lines (regression_threshold w) b;
            fs_log := fs_log c |},
         Ok (if regressions b is [] then 0 else 1))
    | Raise e => (c, Raise e)
    end.
Proof.
  intros Hres. unfold run, main, path_exists, open_and_load.
  rewrite Hres.
  erewrite io_step by (erewrite io_step by apply fs_call_logs; done).
  rewrite bool_decide_eq_true_2 by eauto. cbn [negb].
  erewrite io_step by (erewrite io_step by apply fs_call_logs; done).
  cbn beta iota.
  erewrite io_step by apply load_baseline_loads. cbn [stdout fs_log app].
  destruct (benchmark_entries results) as [items|e] eqn:Hitems; [|done].
  erewrite io_step by done. cbn [mbind result_bind].
  destruct (process_all _ _ _ _) as [b|e] eqn:Hb; [|done].
  erewrite io_step by done. by rewrite report_writes.
Qed.

(** A run whose results document loads and whose entries are all filed. *)
Lemma run_loaded w results items es :
  results_on_disk w = Some (Document results) →
  benchmark_entries results = Ok items →
  filed (baseline_table w) (regression_threshold w) items es →
  run w =
    ({| stdout := baseline_warning w ++ specified_report (regression_threshold w) es;
        fs_log := [Probe ResultsFile; Open ResultsFile] ++ baseline_calls w |},
     Ok (if messages_under Regressed es is [] then 0 else 1)).
Proof.
  intros Hres Hitems Hfiled. rewrite (run_document w results Hres), Hitems.
  cbn [mbind result_bind]. rewrite (process_all_filed _ _ _ _ Hfiled).
  cbn [stdout fs_log]. rewrite report_lines_filed.
  by destruct (foldl_place_lists es empty_buckets) as (-> & _ & _).
Qed.

(** A run whose results file is absent or does not load. *)
Lemma run_missing w :
  results_on_disk w = None →
  run w =
    ({| stdout := ["❌ Benchmark results file not found: " +:+ results_file w];
        fs_log := [Probe ResultsFile] |}, Ok 1).
Proof.
  intros Hres. unfold run, main, path_exists. rewrite Hres.
  by unfold mbind, IO_bind, mret, IO_ret.
Qed.

Lemma run_unloadable w e :
  results_on_disk w = Some (Unloadable e) →
  run w =
    ({| stdout := ["❌ Failed to load results: " +:+ e];
        fs_log := [Probe ResultsFile; Open ResultsFile] |}, Ok 1).
Proof.
  intros Hres. unfold run, main, path_exists. rewrite Hres.
  by unfold mbind, IO_bind, mret, IO_ret.
Qed.

(** A run ends in an uncaught exception exactly when the results document
    loads and line 48 or some iteration of the loop raises. *)
Lemma run_raises w :
  raises (run w).2 ↔
  ∃ results, results_on_disk w = Some (Document results) ∧
    raises (items ← benchmark_entries results;
            process_all (baseline_table w) (regression_threshold w) items empty_buckets).
Proof.
  destruct (results_on_disk w) as [[e|results]|] eqn:Hres.
  - rewrite (run_unloadable w e Hres). split; [by intros [? ?]|by intros (? & ? & _)].
  - rewrite (run_document w results Hres). cbn zeta.
    destruct (_ ≫= _) as [b|e] eqn:Hloop; cbn [snd].
    + split; [by intros [? ?]|]. intros (r & [= <-] & [e He]). congruence.
    + split; [|by exists e]. intros _. exists results. split; [done|by exists e].
  - rewrite (run_missing w Hres). split; [by intros [? ?]|by intros (? & ? & _)].
Qed.

(** The same, entry by entry: line 48 raises, or the iteration on some
    entry does. *)
Lemma run_raises_entry w :
  raises (run w).2 ↔
  ∃ results, results_on_disk w = Some (Document results) ∧
    (raises (benchmark_entries results) ∨
     ∃ item, item ∈ entries w ∧
       raises (process_item (baseline_table w) (regression_threshold w) item)).
Proof.
  rewrite run_raises. unfold entries.
  split; intros (results & Hres & Hr); exists results; (split; [done|]);
    rewrite Hres in *; destruct (benchmark_entries results) as [items|e];
    cbn [mbind result_bind] in *.
  - right. by apply process_all_raises in Hr.
  - left. by exists e.
  - destruct Hr as [[? ?]|Hr]; [done|]. by apply process_all_raises.
  - by exists e.
Qed.

End Runs.

(** * The claims about a single entry *)

Section EntryClaims.

Variable float_of_str : string → option Py.float.
Variable py_repr : value → string.

#[local] Abbreviation py_float := (py_float float_of_str).
#[local] Abbreviation py_str := (py_str py_repr).
#[local] Abbreviation item_mean := (item_mean float_of_str).
#[local] Abbreviation judge := (judge py_repr).
#[local] Abbreviation process_item := (process_item float_of_str py_repr).
#[local] Abbreviation well_formed_item := (well_formed_item float_of_str).
#[local] Abbreviation classified := (classified float_of_str py_repr).

Implicit Types (baseline : value) (table d : gmap string value).
Implicit Types (t mean : Py.float) (item v : value) (c : category).

(** The verdict on a float change, in float comparisons only. *)
Lemma verdict_float t (change : Py.float) :
  verdict t (Py.NFloat change) =
    if Py.fltb t change then Regression
    else if Py.fltb Py.fzero change then SlowerWithinThreshold
    else Improvement.
Proof. unfold verdict. by rewrite PyFacts.gt_float_zero. Qed.

(** The verdict on the int [0] that a zero baseline forces. *)
Lemma verdict_zero t :
  verdict t (Py.NInt 0) = if Py.fltb t Py.fzero then Regression else Improvement.
Proof. unfold verdict. by rewrite PyFacts.gt_zero_float. Qed.

Lemma eq_zero_usable v : py_eq_zero v = true → usable_baseline_mean v.
Proof.
  unfold py_eq_zero, usable_baseline_mean.
  destruct (as_number v) as [[z|f]|] eqn:Hn; [| |done]; cbn; intros Hz.
  - apply Z.eqb_eq in Hz as ->. exists (Py.NInt 0). split; [done|by eexists].
  - exists (Py.NFloat f). split; [done|by eexists].
Qed.

(** An entry against a baseline entry equal to zero: the change is the
    int [0], and the entry is filed by the sign of the threshold alone. *)
Lemma zero_baseline_entry table t d s v mean :
  d !! "method" = Some (VStr s) → table !! s = Some v →
  py_eq_zero v = true → item_mean (VDict d) = Ok mean →
  compute_change mean v = Ok (Py.NInt 0) ∧
  ∃ msg, process_item (VDict table) t (VDict d) = Ok (verdict t (Py.NInt 0), msg) ∧
         (Py.fltb t Py.fzero = false → msg = s +:+ ": 0.0% faster (improvement)").
Proof.
  intros Hm Hv Hz Hmean.
  assert (Hc : compute_change mean v = Ok (Py.NInt 0))
    by (unfold compute_change; by rewrite Hz).
  split; [done|].
  rewrite (process_item_known _ _ table t d s v mean Hm Hv Hmean), Hc.
  cbn [mbind result_bind].
  destruct (judge_returns py_repr t (VStr s) mean v (Py.NInt 0)) as [msg Hj];
    [by apply eq_zero_usable|by left|].
  exists msg. split; [done|]. intros Ht.
  revert Hj. unfold judge. rewrite PyFacts.gt_zero_float, Ht. cbn.
  by intros [= _ <-].
Qed.

(** C1 (as amended).  For an entry whose method has a baseline entry above
    zero, the entry is a Regression exactly when the relative change
    [(mean - baseline_mean) / baseline_mean] is strictly greater than the
    threshold.  When the change equals the threshold the entry is
    therefore not a Regression: it is SlowerWithinThreshold if the
    threshold is above zero and an Improvement if it is not. *)
Theorem regression_iff_change_above_threshold table t d s v n mean :
  d !! "method" = Some (VStr s) →
  table !! s = Some v →
  as_number v = Some n →
  Py.gt n (Py.NInt 0) = true →
  returns (Py.as_float n) →
  item_mean (VDict d) = Ok mean →
  ∃ b c msg,
    Py.as_float n = Ok b ∧
    process_item (VDict table) t (VDict d) = Ok (c, msg) ∧
    (c = Regression ↔ Py.fltb t (Py.fdiv (Py.fsub mean b) b) = true) ∧
    (Py.feqb (Py.fdiv (Py.fsub mean b) b) t = true →
       c = if Py.fltb Py.fzero t then SlowerWithinThreshold else Improvement).
Proof.
  intros Hm Hv Hn Hpos Hf Hmean.
  pose proof (PyFacts.positive_not_zero n Hpos) as Hnz.
  destruct (compute_change_returns mean v n Hn Hf) as [[Hz _]|(_ & b & Hb & Hc)];
    [congruence|].
  destruct (judge_returns py_repr t (VStr s) mean v
              (Py.NFloat (Py.fdiv (Py.fsub mean b) b))) as [msg Hj]; [by exists n|eauto|].
  exists b, (verdict t (Py.NFloat (Py.fdiv (Py.fsub mean b) b))), msg.
  split; [done|]. split.
  { rewrite (process_item_known _ _ table t d s v mean Hm Hv Hmean), Hc. apply Hj. }
  rewrite verdict_float. split.
  - destruct (Py.fltb t _); [done|]. by destruct (Py.fltb Py.fzero _).
  - intros Heq. by rewrite (PyFacts.feqb_not_fltb _ _ Heq), (PyFacts.feqb_same_sign _ _ Heq).
Qed.

(** C3 (as amended).  For an entry whose method has a baseline entry equal
    to zero, the computed change is exactly [0] whatever the current mean,
    and the entry is a Regression exactly when the threshold is below
    zero: never for a threshold of zero or more. *)
Theorem zero_baseline_regression_iff_negative_threshold table t d s v mean :
  d !! "method" = Some (VStr s) →
  table !! s = Some v →
  py_eq_zero v = true →
  item_mean (VDict d) = Ok mean →
  compute_change mean v = Ok (Py.NInt 0) ∧
  ∃ c msg,
    process_item (VDict table) t (VDict d) = Ok (c, msg) ∧
    (c = Regression ↔ Py.fltb t Py.fzero = true).
Proof.
  intros Hm Hv Hz Hmean.
  destruct (zero_baseline_entry table t d s v mean Hm Hv Hz Hmean)
    as (Hc & msg & Hp & _).
  split; [done|]. exists (verdict t (Py.NInt 0)), msg. split; [done|].
  rewrite verdict_zero. by destruct (Py.fltb t Py.fzero).
Qed.

(** C10 (as amended).  For an entry whose method has a baseline entry
    equal to zero, whatever the current mean: the entry is never
    SlowerWithinThreshold and never NewBenchmark; unless the threshold is
    below zero it is an Improvement, appended to the merged
    improvement/within-threshold list with the message
    ["{method}: 0.0% faster (improvement)"]; with a threshold below zero it
    is a Regression. *)
Theorem zero_baseline_reported_as_improvement table t d s v mean :
  d !! "method" = Some (VStr s) →
  table !! s = Some v →
  py_eq_zero v = true →
  item_mean (VDict d) = Ok mean →
  ∃ c msg,
    process_item (VDict table) t (VDict d) = Ok (c, msg) ∧
    c ≠ SlowerWithinThreshold ∧ c ≠ NewBenchmark ∧
    (Py.fltb t Py.fzero = false →
       c = Improvement ∧ msg = s +:+ ": 0.0% faster (improvement)" ∧
       ∀ b, improvements (append_msg b c msg) = improvements b ++ [msg]) ∧
    (Py.fltb t Py.fzero = true → c = Regression).
Proof.
  intros Hm Hv Hz Hmean.
  destruct (zero_baseline_entry table t d s v mean Hm Hv Hz Hmean)
    as (_ & msg & Hp & Hmsg).
  exists (verdict t (Py.NInt 0)), msg. split; [done|]. rewrite verdict_zero.
  destruct (Py.fltb t Py.fzero) eqn:Ht; [by repeat split|].
  do 2 (split; [done|]). split; [|done].
  intros _. split; [done|]. split; [by apply Hmsg|done].
Qed.

(** C5 (as amended).  An absent [method] does not stop processing: the
    method is [None] and, the mean being usable, the entry is a
    NewBenchmark shown under the name [None].  The mean is [0.0] when the
    [mean] field is absent.  When the field is present the mean is
    [float()] of its value, and where [float()] raises, the exception
    leaves the loop body. *)
Theorem absent_fields d :
  (d !! "method" = None →
     item_method (VDict d) = Ok VNone ∧
     ∀ table t mean, item_mean (VDict d) = Ok mean →
       process_item (VDict table) t (VDict d) =
         Ok (NewBenchmark,
             "None: new benchmark (mean: " +:+ Py.format_float 0 mean +:+ "ns)")) ∧
  (d !! "mean" = None → item_mean (VDict d) = Ok Py.fzero) ∧
  (∀ v, d !! "mean" = Some v →
     item_mean (VDict d) = py_float v ∧
     ∀ e, py_float v = Raise e →
       ∀ baseline t, process_item baseline t (VDict d) = Raise e).
Proof.
  destruct (item_fields float_of_str d) as [Hmeth Hmean].
  split; [|split].
  - intros Hm. rewrite Hmeth, Hm. split; [done|]. intros table t mean Hmn.
    rewrite (process_item_unknown _ _ (VDict table) t d mean); by rewrite ?Hm.
  - intros Hm. by rewrite Hmean, Hm.
  - intros v Hv. rewrite Hmean, Hv. split; [done|]. intros e He baseline t.
    unfold process_item. rewrite Hmeth. cbn [mbind result_bind].
    rewrite Hmean, Hv. change (default (VInt 0) (Some v)) with v. by rewrite He.
Qed.

(** The category of a well-formed entry is a function of its mean, its
    baseline lookup and the threshold. *)
Lemma classified_category_for baseline t item mean c :
  well_formed_item baseline item → item_mean item = Ok mean →
  classified baseline t item c ↔
  category_for t mean (baseline_entry baseline item) = Some c.
Proof.
  intros Hwf Hmean. pose proof Hwf as (d & -> & _). unfold classified, category_for.
  destruct (well_formed_item_entry float_of_str baseline d Hwf)
    as [(v & Hin & Hv & Hu & ->)|[Hin ->]].
  - rewrite (process_item_found _ _ baseline t d v mean Hin Hv Hmean).
    destruct Hu as (n & Hn & Hf).
    assert (∃ change, compute_change mean v = Ok change ∧
              (change = Py.NInt 0 ∨ ∃ f, change = Py.NFloat f))
      as (change & Hc & Hshape).
    { destruct (compute_change_returns mean v n Hn Hf) as [[_ Hc]|(_ & b & _ & Hc)];
        eauto. }
    rewrite Hc. cbn [mbind result_bind].
    destruct (judge_returns py_repr t (default VNone (d !! "method")) mean v change)
      as [msg Hj]; [by exists n|done|].
    rewrite Hj. split; [by intros [? [= <- _]]|intros [= <-]; eauto].
  - rewrite (process_item_unknown _ _ baseline t d mean Hin Hmean).
    split; [by intros [? [= <- _]]|intros [= <-]; eauto].
Qed.

End EntryClaims.

(** * The claims about a whole run *)

Section RunClaims.

Variable float_of_str : string → option Py.float.
Variable py_repr : value → string.

#[local] Abbreviation item_mean := (item_mean float_of_str).
#[local] Abbreviation process_item := (process_item float_of_str py_repr).
#[local] Abbreviation process_all := (process_all float_of_str py_repr).
#[local] Abbreviation well_formed_item := (well_formed_item float_of_str).
#[local] Abbreviation classified := (classified float_of_str py_repr).
#[local] Abbreviation filed := (filed float_of_str py_repr).
#[local] Abbreviation well_formed := (well_formed float_of_str).
#[local] Abbreviation regression_detected := (regression_detected float_of_str py_repr).
#[local] Abbreviation run := (run float_of_str py_repr).

Implicit Types (baseline : value) (t : Py.float).
Implicit Types (item : value) (items : list value) (c : category).
Implicit Types (es : list (category * string)) (w : world).

Lemma classified_functional baseline t item c1 c2 :
  classified baseline t item c1 → classified baseline t item c2 → c1 = c2.
Proof. intros [m1 H1] [m2 H2]. congruence. Qed.

(** The filed entries carry exactly the categories of the items. *)
Lemma filed_classified baseline t items es c :
  filed baseline t items es →
  (∃ item, item ∈ items ∧ classified baseline t item c) ↔ (∃ msg, (c, msg) ∈ es).
Proof.
  induction 1 as [|item [c' msg'] items es Hitem _ IH].
  - split; intros (? & H); [destruct H as [H _]|]; by apply elem_of_nil in H.
  - split.
    + intros (x & [->|Hin]%elem_of_cons & Hc).
      * destruct Hc as [msg Hc]. exists msg. rewrite Hitem in Hc.
        injection Hc as -> ->. apply elem_of_cons; by left.
      * destruct (proj1 IH) as [msg Hmsg]; [by exists x|].
        exists msg. apply elem_of_cons; by right.
    + intros (msg & [[= -> ->]|Hin]%elem_of_cons).
      * exists item. split; [apply elem_of_cons; by left|by exists msg'].
      * destruct (proj2 IH) as (x & Hx & Hc); [by exists msg|].
        exists x. split; [apply elem_of_cons; by right|done].
Qed.

Lemma messages_under_nil h es :
  messages_under h es = [] ↔ ∀ c msg, (c, msg) ∈ es → heading_of c ≠ h.
Proof.
  unfold messages_under. induction es as [|[c msg] es IH].
  - split; [|done]. intros _ c msg H. by apply elem_of_nil in H.
  - rewrite filter_cons. cbn [fst]. case_decide as Hh.
    + split; [done|]. intros H. destruct (H c msg); [apply elem_of_cons; by left|done].
    + rewrite IH. split.
      * intros H c' msg' [[= -> ->]|Hin]%elem_of_cons; eauto.
      * intros H c' msg' Hin. apply (H c' msg'). apply elem_of_cons; by right.
Qed.

Lemma regression_messages baseline t items es :
  filed baseline t items es →
  messages_under Regressed es ≠ [] ↔
  ∃ item, item ∈ items ∧ classified baseline t item Regression.
Proof.
  intros Hfiled. rewrite (filed_classified _ _ _ _ Regression Hfiled), messages_under_nil.
  split.
  - intros Hne. destruct (decide (Exists (λ e, e.1 = Regression) es)) as [Hex|Hnex].
    + apply Exists_exists in Hex as ([c msg] & Hin & Hc). cbn in Hc. subst c. eauto.
    + destruct Hne. intros c msg Hin Hh. apply Hnex, Exists_exists.
      exists (c, msg). split; [done|]. by destruct c.
  - intros [msg Hin] H. by apply (H Regression msg).
Qed.

(** Whatever the documents hold, the exit status is 0 or 1, and it is 1
    exactly when the results file is missing or does not load, an
    exception leaves [main], or some entry is a Regression. *)
Lemma exit_status_one_iff w :
  (exit_status (run w).2 = 1 ∨ exit_status (run w).2 = 0) ∧
  (exit_status (run w).2 = 1 ↔
     results_on_disk w = None ∨
     (∃ e, results_on_disk w = Some (Unloadable e)) ∨
     raises (run w).2 ∨
     regression_detected w).
Proof.
  unfold regression_detected, entries.
  destruct (results_on_disk w) as [[e|results]|] eqn:Hres.
  - rewrite (run_unloadable float_of_str py_repr w e Hres). cbn. split; [by left|].
    split; [eauto|done].
  - rewrite (run_document float_of_str py_repr w results Hres). cbn zeta.
    destruct (benchmark_entries results) as [items|e] eqn:Hitems; cbn [mbind result_bind].
    2: { cbn. split; [by left|]. split; [|done]. intros _. right. right. left. by exists e. }
    destruct (process_all _ _ _ _) as [b|e] eqn:Hloop.
    2: { cbn. split; [by left|]. split; [|done]. intros _. right. right. left. by exists e. }
    apply process_all_returns in Hloop as (es & Hes & ->).
    destruct (foldl_place_lists es empty_buckets) as (-> & _ & _). cbn [app snd exit_status].
    pose proof (regression_messages _ _ _ _ Hes) as Hreg.
    destruct (messages_under Regressed es) as [|r rs].
    + split; [by right|]. split; [done|].
      intros [?|[[? ?]|[[? ?]|Hdet]]]; try done. by apply Hreg in Hdet.
    + split; [by left|]. split; [|done]. intros _. right. right. right. by apply Hreg.
  - rewrite (run_missing float_of_str py_repr w Hres). cbn. split; [by left|].
    split; [eauto|done].
Qed.

(** A run on a results document of the documented shape returns, without
    an exception. *)
Lemma well_formed_returns w : well_formed w → returns (run w).2.
Proof.
  unfold well_formed, entries.
  destruct (results_on_disk w) as [[e|results]|] eqn:Hres.
  - intros _. rewrite (run_unloadable float_of_str py_repr w e Hres). by eexists.
  - intros [[items Hitems] Hwf]. rewrite Hitems in *.
    destruct (well_formed_filed float_of_str py_repr _ (regression_threshold w) _ Hwf)
      as [es Hes].
    rewrite (run_loaded float_of_str py_repr w results items es Hres Hitems Hes).
    by eexists.
  - intros _. rewrite (run_missing float_of_str py_repr w Hres). by eexists.
Qed.


(** A well-formed entry has a mean. *)
Lemma well_formed_item_mean baseline item :
  well_formed_item baseline item → ∃ mean, item_mean item = Ok mean.
Proof.
  intros (d & -> & _ & [mean Hmean] & _). exists mean.
  by destruct (item_fields float_of_str d) as [_ ->].
Qed.

Lemma unknown_is_new baseline t item :
  well_formed_item baseline item → baseline_entry baseline item = None →
  classified baseline t item NewBenchmark.
Proof.
  intros Hwf Hnone. destruct (well_formed_item_mean _ _ Hwf) as [mean Hmean].
  apply (classified_category_for float_of_str py_repr baseline t item mean); [done..|].
  by rewrite Hnone.
Qed.

Lemma empty_table_no_entry item : baseline_entry (VDict ∅) item = None.
Proof.
  unfold baseline_entry. by destruct (item_method item) as [[| | | |s| |]|].
Qed.

(** A run in which every entry is a NewBenchmark returns 0. *)
Lemma all_new_exit_zero w results items :
  results_on_disk w = Some (Document results) →
  benchmark_entries results = Ok items →
  Forall (well_formed_item (baseline_table w)) items →
  (∀ item, item ∈ items →
     classified (baseline_table w) (regression_threshold w) item NewBenchmark) →
  (run w).2 = Ok 0.
Proof.
  intros Hres Hitems Hwf Hnew.
  destruct (well_formed_filed float_of_str py_repr _ (regression_threshold w) _ Hwf) as [es Hes].
  rewrite (run_loaded float_of_str py_repr w results items es Hres Hitems Hes). cbn [snd].
  destruct (messages_under Regressed es) as [|r rs] eqn:Hmsgs; [done|].
  destruct (proj1 (regression_messages _ _ _ _ Hes)) as (x & Hx & Hc);
    [by rewrite Hmsgs|].
  by pose proof (classified_functional _ _ _ _ _ Hc (Hnew x Hx)).
Qed.


(** C6.  When the baseline file exists and does not load while the
    results document does: the table is empty, the run prints the warning
    and then does and returns exactly what it does with no baseline file
    at all; and the entries being well-formed, each is a NewBenchmark and
    the run goes on to return 0. *)
Theorem unloadable_baseline_as_absent w e results :
  baseline_on_disk w = Some (Unloadable e) →
  results_on_disk w = Some (Document results) →
  baseline_table w = VDict ∅ ∧
  stdout (run w).1 =
    ("⚠️  Warning: Could not load baseline: " +:+ e) :: stdout (run (without_baseline w)).1 ∧
  (run w).2 = (run (without_baseline w)).2 ∧
  ∀ items, benchmark_entries results = Ok items →
    Forall (well_formed_item (VDict ∅)) items →
    (∀ item, item ∈ items →
       classified (baseline_table w) (regression_threshold w) item NewBenchmark) ∧
    (run w).2 = Ok 0.
Proof.
  intros Hbase Hres.
  assert (Htable : baseline_table w = VDict ∅)
    by (unfold baseline_table; by rewrite Hbase).
  split; [done|].
  assert (Hentries : ∀ items, benchmark_entries results = Ok items →
            Forall (well_formed_item (VDict ∅)) items →
            (∀ item, item ∈ items →
               classified (baseline_table w) (regression_threshold w) item NewBenchmark) ∧
            (run w).2 = Ok 0).
  { intros items Hitems Hwf. rewrite <- Htable in Hwf.
    assert (Hnew : ∀ item, item ∈ items →
              classified (baseline_table w) (regression_threshold w) item NewBenchmark).
    { intros item Hin. apply unknown_is_new.
      - by apply (proj1 (Forall_forall _ _) Hwf).
      - rewrite Htable. apply empty_table_no_entry. }
    split; [done|]. by apply (all_new_exit_zero w results items). }
  split; [|split; [|done]].
  all: rewrite (run_document float_of_str py_repr w results Hres).
  all: rewrite (run_document float_of_str py_repr (without_baseline w) results Hres).
  all: unfold baseline_warning; rewrite Hbase, Htable.
  all: change (baseline_table (without_baseline w)) with (VDict ∅).
  all: change (regression_threshold (without_baseline w)) with (regression_threshold w).
  all: change (baseline_on_disk (without_baseline w)) with (@None (loaded value)).
  all: cbn zeta iota; by destruct (_ ≫= _).
Qed.

(** C7.  When the results path does not exist the run returns 1 after a
    single file-system call, the existence check of the results path: the
    baseline file is neither probed nor opened. *)
Theorem missing_results_leaves_baseline_untouched w :
  results_on_disk w = None →
  (run w).2 = Ok 1 ∧
  exit_status (run w).2 = 1 ∧
  fs_log (run w).1 = [Probe ResultsFile] ∧
  (Open BaselineFile ∉ fs_log (run w).1) ∧
  (Probe BaselineFile ∉ fs_log (run w).1).
Proof.
  intros Hres. rewrite (run_missing float_of_str py_repr w Hres). cbn.
  repeat split; try done; by intros [=]%list_elem_of_singleton.
Qed.

(** C8.  The text of a report is, in this order: the banner; the
    within-threshold/improvement section, if it has messages; the
    new-benchmark section, if it has messages; then the regression
    section, whose header names the threshold percentage, if it has
    messages.  The messages of a section are those of the entries filed
    there, in the order of the entries, which is the order of the input
    list. *)
Theorem report_sections_in_input_order w results items :
  results_on_disk w = Some (Document results) →
  benchmark_entries results = Ok items →
  Forall (well_formed_item (baseline_table w)) items →
  ∃ es,
    filed (baseline_table w) (regression_threshold w) items es ∧
    stdout (run w).1 =
      baseline_warning w ++ specified_report (regression_threshold w) es ∧
    ∀ h, messages_under h es `sublist_of` es.*2.
Proof.
  intros Hres Hitems Hwf.
  destruct (well_formed_filed float_of_str py_repr _ (regression_threshold w) _ Hwf) as [es Hes].
  exists es. split; [done|]. split.
  - by rewrite (run_loaded float_of_str py_repr w results items es Hres Hitems Hes).
  - intros h. unfold messages_under. apply fmap_sublist, sublist_filter.
Qed.

(** C9.  Every well-formed entry is filed under exactly one of the four
    categories; the lists the loop builds hold one message per entry, the
    one of the entry's own category; and the category is the same for any
    entry, in any table, with the same mean, the same baseline lookup and
    the same threshold. *)
Theorem one_category_per_entry baseline t items :
  Forall (well_formed_item baseline) items →
  (∀ item, item ∈ items →
     ∃ c, classified baseline t item c ∧
          ∀ c', classified baseline t item c' → c' = c) ∧
  (∃ es b,
     filed baseline t items es ∧
     process_all baseline t items empty_buckets = Ok b ∧
     regressions b = messages_under Regressed es ∧
     improvements b = messages_under WithinOrImproved es ∧
     new_benchmarks b = messages_under NewlyAdded es ∧
     (length (regressions b) + length (improvements b) + length (new_benchmarks b)
      = length items)%nat) ∧
  (∀ item baseline' item' c,
     item ∈ items → well_formed_item baseline' item' →
     item_mean item' = item_mean item →
     baseline_entry baseline' item' = baseline_entry baseline item →
     classified baseline t item c ↔ classified baseline' t item' c).
Proof.
  intros Hwf. pose proof (proj1 (Forall_forall _ _) Hwf) as Hall.
  split; [|split].
  - intros item Hin.
    destruct (process_item_total float_of_str py_repr baseline t item (Hall item Hin)) as (c & msg & Hc).
    exists c. split; [by exists msg|].
    intros c' Hc'. eapply classified_functional; [done|by exists msg].
  - destruct (well_formed_filed float_of_str py_repr _ t _ Hwf) as [es Hes].
    exists es, (foldl place empty_buckets es).
    destruct (foldl_place_lists es empty_buckets) as (Hr & Hi & Hn).
    rewrite Hr, Hi, Hn. cbn [empty_buckets regressions improvements new_benchmarks app].
    repeat split; try done; [by apply process_all_filed|].
    rewrite (Forall2_length _ _ _ Hes). unfold messages_under.
    rewrite !length_fmap. clear. induction es as [|[c msg] es IH]; [done|].
    rewrite !filter_cons. cbn [fst length]. rewrite <- IH.
    destruct c; cbn; repeat case_decide; try done; cbn [length]; lia.
  - intros item baseline' item' c Hin Hwf' Hmean Hentry.
    destruct (well_formed_item_mean _ _ (Hall item Hin)) as [mean Hm].
    rewrite (classified_category_for float_of_str py_repr baseline t item mean c (Hall item Hin) Hm).
    rewrite (classified_category_for float_of_str py_repr baseline' t item' mean c Hwf'); [|congruence].
    by rewrite Hentry.
Qed.

End RunClaims.

(** * The claims on concrete inputs *)

(** Discharges [well_formed_item] on a literal entry and a literal table. *)
Ltac literal_item :=
  apply well_formed_item_table; [reflexivity|eexists; reflexivity|];
  let s := fresh "s" in let v := fresh "v" in
  let Hs := fresh "Hs" in let Hv := fresh "Hv" in
  intros s v Hs Hv; vm_compute in Hs;
  first
    [ discriminate Hs
    | injection Hs as <-; vm_compute in Hv;
      first
        [ discriminate Hv
        | injection Hv as <-; eexists; split; [reflexivity|eexists; reflexivity] ] ].

Ltac literal_items := repeat (constructor; [literal_item|]); constructor.

(** Scenario A of the specification and its neighbours: [foo] at 150, 110
    and 100 against a baseline of 100. *)
Example scenario_regression :
  run unused_float_of_str unused_repr
    (invocation threshold_default baseline_foo [entry "foo" 150]) =
  ({| stdout :=
        [nl +:+ rule; "BENCHMARK COMPARISON REPORT"; rule;
         nl +:+ "❌ REGRESSIONS DETECTED (> 10% threshold):";
         "  foo: 50.0% regression (baseline: 100ns, current: 150ns)";
         nl +:+ rule];
      fs_log := [Probe ResultsFile; Open ResultsFile;
                 Probe BaselineFile; Open BaselineFile] |}, Ok 1).
Proof. vm_compute. reflexivity. Qed.

Example scenario_mixed :
  stdout (run unused_float_of_str unused_repr
            (invocation threshold_default baseline_foo
               [entry "foo" 105; entry "bar" 42; entry "foo" 90; VDict ∅])).1 =
  [nl +:+ rule; "BENCHMARK COMPARISON REPORT"; rule;
   nl +:+ "✓ Improvements/Within Threshold:";
   "  foo: 5.0% slower (within threshold)";
   "  foo: 10.0% faster (improvement)";
   nl +:+ "+ New Benchmarks:";
   "  bar: new benchmark (mean: 42ns)";
   "  None: new benchmark (mean: 0ns)";
   nl +:+ "✓ All benchmarks within acceptable threshold";
   rule +:+ nl].
Proof. vm_compute. reflexivity. Qed.

(** Scenarios B, C and D. *)
Example scenario_slower :
  process_item unused_float_of_str unused_repr baseline_foo threshold_default
    (entry "foo" 105) =
  Ok (SlowerWithinThreshold, "foo: 5.0% slower (within threshold)").
Proof. vm_compute. reflexivity. Qed.

Example scenario_improvement :
  process_item unused_float_of_str unused_repr baseline_foo threshold_default
    (entry "foo" 90) =
  Ok (Improvement, "foo: 10.0% faster (improvement)").
Proof. vm_compute. reflexivity. Qed.

Example scenario_new :
  run unused_float_of_str unused_repr (invocation threshold_default (VDict ∅) [entry "bar" 42]) =
  ({| stdout :=
        [nl +:+ rule; "BENCHMARK COMPARISON REPORT"; rule;
         nl +:+ "+ New Benchmarks:";
         "  bar: new benchmark (mean: 42ns)";
         nl +:+ "✓ All benchmarks within acceptable threshold";
         rule +:+ nl];
      fs_log := [Probe ResultsFile; Open ResultsFile;
                 Probe BaselineFile; Open BaselineFile] |}, Ok 0).
Proof. vm_compute. reflexivity. Qed.

(** The boundary: a change equal to the default threshold. *)
Example scenario_boundary :
  Py.feqb (Py.fdiv (Py.fsub (Py.float_of_Z 110) (Py.float_of_Z 100)) (Py.float_of_Z 100))
          threshold_default = true ∧
  process_item unused_float_of_str unused_repr baseline_foo threshold_default
    (entry "foo" 110) =
  Ok (SlowerWithinThreshold, "foo: 10.0% slower (within threshold)").
Proof. split; vm_compute; reflexivity. Qed.

(** A results document that is valid JSON and not an object is outside
    the documented shape: [results.get] raises once the baseline has been
    loaded, and the interpreter exits with status 1. *)
Example results_not_an_object :
  run unused_float_of_str unused_repr
    {| results_file := "results.json";
       regression_threshold := threshold_default;
       results_on_disk := Some (Document (VList []));
       baseline_on_disk := None |} =
  ({| stdout := [];
      fs_log := [Probe ResultsFile; Open ResultsFile; Probe BaselineFile] |},
   Raise AttributeError).
Proof. vm_compute. reflexivity. Qed.

(** A baseline document that is valid JSON and not an object takes the
    place of the table as it is.  Against the array [[5]] the method [5]
    passes the membership test of line 52, is then used as an index at
    line 53, and the IndexError leaves [main]; a method that the array
    does not hold is a new benchmark, and one that it holds and that is
    an index within it is compared with the element there. *)
Example baseline_not_an_object :
  run unused_float_of_str unused_repr list_baseline_run =
    ({| stdout := [];
        fs_log := [Probe ResultsFile; Open ResultsFile;
                   Probe BaselineFile; Open BaselineFile] |}, Raise IndexError) ∧
  process_item unused_float_of_str unused_repr (VList [VInt 5]) threshold_default
    (entry "foo" 100) = Ok (NewBenchmark, "foo: new benchmark (mean: 100ns)") ∧
  process_item unused_float_of_str unused_repr (VList [VInt 1; VInt 100]) threshold_default
    (VDict {[ "method" := VInt 1; "mean" := VInt 150 ]}) =
    Ok (Regression, "1: 50.0% regression (baseline: 100ns, current: 150ns)") ∧
  process_item unused_float_of_str unused_repr (VStr "foobar") threshold_default
    (entry "foo" 100) = Raise TypeError ∧
  process_item unused_float_of_str unused_repr VNone threshold_default
    (entry "foo" 100) = Raise TypeError.
Proof. repeat split; vm_compute; reflexivity. Qed.

Lemma regression_iff_change_above_threshold_witness :
  ∃ b c msg,
    Py.as_float (Py.NInt 100) = Ok b ∧
    process_item unused_float_of_str unused_repr baseline_foo threshold_default
      (entry "foo" 110) = Ok (c, msg) ∧
    (c = Regression ↔
       Py.fltb threshold_default (Py.fdiv (Py.fsub (Py.float_of_Z 110) b) b) = true) ∧
    (Py.feqb (Py.fdiv (Py.fsub (Py.float_of_Z 110) b) b) threshold_default = true →
       c = if Py.fltb Py.fzero threshold_default
           then SlowerWithinThreshold else Improvement).
Proof.
  apply (regression_iff_change_above_threshold unused_float_of_str unused_repr
           table_foo threshold_default _ "foo" (VInt 100) (Py.NInt 100)
           (Py.float_of_Z 110)).
  - reflexivity.
  - reflexivity.
  - reflexivity.
  - reflexivity.
  - eexists. reflexivity.
  - reflexivity.
Defined.

(** C1 as stated fails at a threshold of zero: [foo] at 100 against a
    baseline of 100 has a relative change equal to the threshold, and is
    an Improvement, not SlowerWithinThreshold. *)
Lemma change_equal_to_zero_threshold_is_improvement :
  Py.gt (Py.NInt 100) (Py.NInt 0) = true ∧
  Py.feqb (Py.fdiv (Py.fsub (Py.float_of_Z 100) (Py.float_of_Z 100)) (Py.float_of_Z 100))
          Py.fzero = true ∧
  process_item unused_float_of_str unused_repr baseline_foo Py.fzero (entry "foo" 100) =
    Ok (Improvement, "foo: 0.0% faster (improvement)") ∧
  ¬ classified unused_float_of_str unused_repr baseline_foo Py.fzero (entry "foo" 100)
      SlowerWithinThreshold.
Proof.
  repeat split; try reflexivity.
  intros [msg H]. vm_compute in H. discriminate H.
Qed.

Lemma zero_baseline_regression_iff_negative_threshold_witness :
  compute_change (Py.float_of_Z 105) (VInt 0) = Ok (Py.NInt 0) ∧
  ∃ c msg,
    process_item unused_float_of_str unused_repr baseline_zero threshold_default
      (entry "foo" 105) = Ok (c, msg) ∧
    (c = Regression ↔ Py.fltb threshold_default Py.fzero = true).
Proof.
  apply (zero_baseline_regression_iff_negative_threshold unused_float_of_str unused_repr
           table_zero threshold_default _ "foo" (VInt 0) (Py.float_of_Z 105));
    reflexivity.
Defined.

(** C3 as stated fails at a threshold below zero: [foo] against a
    baseline of 0 is then a Regression. *)
Lemma zero_baseline_is_regression_below_zero_threshold :
  py_eq_zero (VInt 0) = true ∧
  process_item unused_float_of_str unused_repr baseline_zero (Py.float_of_Z (-1))
    (entry "foo" 105) =
    Ok (Regression, "foo: 0.0% regression (baseline: 0ns, current: 105ns)") ∧
  (run unused_float_of_str unused_repr
     (invocation (Py.float_of_Z (-1)) baseline_zero [entry "foo" 105])).2 = Ok 1.
Proof. repeat split; vm_compute; reflexivity. Qed.

Lemma zero_baseline_reported_as_improvement_witness :
  ∃ c msg,
    process_item unused_float_of_str unused_repr baseline_zero threshold_default
      (entry "foo" 1000000) = Ok (c, msg) ∧
    c ≠ SlowerWithinThreshold ∧ c ≠ NewBenchmark ∧
    (Py.fltb threshold_default Py.fzero = false →
       c = Improvement ∧ msg = "foo" +:+ ": 0.0% faster (improvement)" ∧
       ∀ b, improvements (append_msg b c msg) = improvements b ++ [msg]) ∧
    (Py.fltb threshold_default Py.fzero = true → c = Regression).
Proof.
  apply (zero_baseline_reported_as_improvement unused_float_of_str unused_repr
           table_zero threshold_default _ "foo" (VInt 0) (Py.float_of_Z 1000000));
    reflexivity.
Defined.

(** C10 as stated fails at a threshold below zero: the entry goes to the
    regression list, with the regression message. *)
Lemma zero_baseline_not_improvement_below_zero_threshold :
  py_eq_zero (VFloat Py.fzero) = true ∧
  process_item unused_float_of_str unused_repr (VDict {[ "bar" := VFloat Py.fzero ]})
    minus_half (entry "bar" 7) =
    Ok (Regression, "bar: 0.0% regression (baseline: 0ns, current: 7ns)") ∧
  stdout (run unused_float_of_str unused_repr
            (invocation minus_half (VDict {[ "bar" := VFloat Py.fzero ]})
               [entry "bar" 7])).1 =
    [nl +:+ rule; "BENCHMARK COMPARISON REPORT"; rule;
     nl +:+ "❌ REGRESSIONS DETECTED (> -50% threshold):";
     "  bar: 0.0% regression (baseline: 0ns, current: 7ns)";
     nl +:+ rule].
Proof. repeat split; vm_compute; reflexivity. Qed.

Lemma absent_fields_witness :
  item_method (VDict ∅) = Ok VNone ∧
  process_item unused_float_of_str unused_repr baseline_foo threshold_default (VDict ∅) =
    Ok (NewBenchmark, "None: new benchmark (mean: 0ns)") ∧
  item_mean unused_float_of_str (VDict ∅) = Ok Py.fzero ∧
  item_mean unused_float_of_str (VDict {[ "mean" := VInt 42 ]}) = Ok (Py.float_of_Z 42) ∧
  process_item unused_float_of_str unused_repr baseline_foo threshold_default
    (VDict {[ "mean" := VList [] ]}) = Raise TypeError.
Proof.
  destruct (absent_fields unused_float_of_str unused_repr ∅) as (Hmethod & Hmean & _).
  destruct (Hmethod eq_refl) as [Hnone Hnew].
  destruct (absent_fields unused_float_of_str unused_repr {[ "mean" := VInt 42 ]})
    as (_ & _ & Hpresent).
  destruct (absent_fields unused_float_of_str unused_repr {[ "mean" := VList [] ]})
    as (_ & _ & Hbad).
  split; [exact Hnone|].
  split; [exact (Hnew table_foo threshold_default Py.fzero (Hmean eq_refl))|].
  split; [exact (Hmean eq_refl)|].
  split; [exact (proj1 (Hpresent (VInt 42) eq_refl))|].
  exact (proj2 (Hbad (VList []) eq_refl) TypeError eq_refl baseline_foo threshold_default).
Defined.

(** C5 as stated fails on a [mean] that [float()] rejects: with
    ["mean": null] the mean is not 0, the loop body raises TypeError and
    the run ends there, with nothing reported. *)
Lemma null_mean_raises :
  py_float unused_float_of_str VNone = Raise TypeError ∧
  item_mean unused_float_of_str null_mean_entry ≠ Ok Py.fzero ∧
  process_item unused_float_of_str unused_repr baseline_foo threshold_default
    null_mean_entry = Raise TypeError ∧
  run unused_float_of_str unused_repr
    (invocation threshold_default baseline_foo [null_mean_entry]) =
    ({| stdout := [];
        fs_log := [Probe ResultsFile; Open ResultsFile;
                   Probe BaselineFile; Open BaselineFile] |}, Raise TypeError).
Proof. repeat split; try (vm_compute; reflexivity). intros H. vm_compute in H. discriminate H. Qed.




Lemma unloadable_baseline_as_absent_witness :
  stdout (run unused_float_of_str unused_repr broken_baseline_run).1 =
    ("⚠️  Warning: Could not load baseline: " +:+ "Expecting value: line 1 column 1 (char 0)")
    :: stdout (run unused_float_of_str unused_repr (without_baseline broken_baseline_run)).1 ∧
  (run unused_float_of_str unused_repr broken_baseline_run).2 = Ok 0.
Proof.
  destruct (unloadable_baseline_as_absent unused_float_of_str unused_repr
              broken_baseline_run "Expecting value: line 1 column 1 (char 0)"
              (results_doc [entry "foo" 105]))
    as (_ & Hout & _ & Hentries).
  - reflexivity.
  - reflexivity.
  - split; [exact Hout|].
    destruct (Hentries [entry "foo" 105]) as [_ Hrun]; [reflexivity|literal_items|exact Hrun].
Defined.

Lemma missing_results_leaves_baseline_untouched_witness :
  fs_log (run unused_float_of_str unused_repr missing_results_run).1 = [Probe ResultsFile] ∧
  (run unused_float_of_str unused_repr missing_results_run).2 = Ok 1.
Proof.
  destruct (missing_results_leaves_baseline_untouched unused_float_of_str unused_repr
              missing_results_run) as (Hrun & _ & Hlog & _).
  - reflexivity.
  - split; [exact Hlog|exact Hrun].
Defined.

Lemma report_sections_in_input_order_witness :
  ∃ es,
    filed unused_float_of_str unused_repr baseline_foo threshold_default
      [entry "foo" 105; entry "bar" 42; entry "foo" 150; entry "foo" 90] es ∧
    stdout (run unused_float_of_str unused_repr
              (invocation threshold_default baseline_foo
                 [entry "foo" 105; entry "bar" 42; entry "foo" 150; entry "foo" 90])).1 =
      specified_report threshold_default es.
Proof.
  destruct (report_sections_in_input_order unused_float_of_str unused_repr
              (invocation threshold_default baseline_foo
                 [entry "foo" 105; entry "bar" 42; entry "foo" 150; entry "foo" 90])
              (results_doc [entry "foo" 105; entry "bar" 42; entry "foo" 150; entry "foo" 90])
              [entry "foo" 105; entry "bar" 42; entry "foo" 150; entry "foo" 90])
    as (es & Hfiled & Hout & _).
  - reflexivity.
  - reflexivity.
  - literal_items.
  - exists es. split; [exact Hfiled|exact Hout].
Defined.

Lemma one_category_per_entry_witness :
  ∃ es b,
    filed unused_float_of_str unused_repr baseline_foo threshold_default
      [entry "foo" 150; entry "bar" 42; entry "foo" 90] es ∧
    process_all unused_float_of_str unused_repr baseline_foo threshold_default
      [entry "foo" 150; entry "bar" 42; entry "foo" 90] empty_buckets = Ok b ∧
    (length (regressions b) + length (improvements b) + length (new_benchmarks b) = 3)%nat.
Proof.
  destruct (one_category_per_entry unused_float_of_str unused_repr baseline_foo
              threshold_default [entry "foo" 150; entry "bar" 42; entry "foo" 90])
    as (_ & (es & b & Hfiled & Hb & _ & _ & _ & Hlen) & _).
  - literal_items.
  - exists es, b. split; [exact Hfiled|]. split; [exact Hb|exact Hlen].
Defined.

(** * Further facts about binary64 *)

Module PyOrder.
Import Py.

(** The two comparisons the script uses are transitive together:
    [a <= b < c] gives [a < c]. *)
Lemma fleb_fltb_trans (a b c : float) :
  float_leb a b = true → fltb b c = true → fltb a c = true.
Proof.
  unfold float_leb, fltb, SFleb, SFltb.
  destruct a as [[]|[]| |[] m1 e1], b as [[]|[]| |[] m2 e2],
    c as [[]|[]| |[] m3 e3]; cbn; try done.
  all: change (Pos.compare_cont Eq m1 m2) with (m1 ?= m2)%positive.
  all: change (Pos.compare_cont Eq m2 m3) with (m2 ?= m3)%positive.
  all: change (Pos.compare_cont Eq m1 m3) with (m1 ?= m3)%positive.
  all: destruct (Z.compare_spec e1 e2), (Z.compare_spec e2 e3),
         (Z.compare_spec e1 e3); try done; try lia.
  all: destruct (Pos.compare_spec m1 m2), (Pos.compare_spec m2 m3),
         (Pos.compare_spec m1 m3); try done; lia.
Qed.

(** Nothing is above a NaN or an infinite threshold, and a NaN is above
    nothing. *)
Lemma gt_unbounded (change : number) (t : float) :
  t = S754_nan ∨ t = S754_infinity false → gt change (NFloat t) = false.
Proof.
  intros [->| ->]; destruct change as [z|[[]|[]| |[] m e]]; done.
Qed.

Lemma nan_above_nothing (b : number) : gt (NFloat S754_nan) b = false.
Proof. by destruct b as [z|[[]|[]| |[] m e]]. Qed.

Lemma fsub_nan (a b : float) :
  a = S754_nan ∨ b = S754_nan → fsub a b = S754_nan.
Proof. intros [->| ->]; [done|]. by destruct a as [[]|[]| |[] m e]. Qed.

Lemma fdiv_nan (b : float) : fdiv S754_nan b = S754_nan.
Proof. done. Qed.

(** *** Integers below [2^53] convert exactly *)

Lemma iter_xO_value (p k : positive) :
  Zpos (Pos.iter xO p k) = Zpos p * 2 ^ Zpos k.
Proof.
  induction k as [|k IH] using Pos.peano_ind.
  - cbn. lia.
  - rewrite Pos.iter_succ, Pos2Z.inj_succ, Z.pow_succ_r by lia. lia.
Qed.

(** A mantissa already at the exponent the format imposes is kept. *)
Lemma binary_round_aux_exact (s : bool) (m : positive) (e : Z) :
  fexp prec emax (Zpos (digits2_pos m) + e) = e →
  e ≤ emax - prec →
  binary_round_aux prec emax s (Zpos m) e loc_Exact = S754_finite s m e.
Proof.
  intros Hcanon He. unfold binary_round_aux, shr_fexp. cbn [Zdigits2].
  rewrite Hcanon, Z.sub_diag. cbn. rewrite Hcanon, Z.sub_diag. cbn.
  by apply Z.leb_le in He as ->.
Qed.

Lemma binary_round_small (s : bool) (p : positive) :
  Zpos p < 2 ^ 53 →
  ∃ m e, binary_round prec emax s p 0 = S754_finite s m e ∧
         e ≤ 0 ∧ Zpos m = Zpos p * 2 ^ (- e).
Proof.
  intros Hp.
  assert (Hd : Zpos (digits2_pos p) ≤ 53).
  { rewrite PyFacts.Zdigits2_log2. apply Z.log2_lt_pow2 in Hp; lia. }
  unfold binary_round, shl_align.
  destruct (fexp prec emax _ - 0) as [|d|d] eqn:Hshift;
    unfold fexp, emin, prec, emax in Hshift; try lia.
  - exists p, 0. split; [|split; [lia|cbn; lia]].
    apply binary_round_aux_exact; unfold fexp, emin, prec, emax; lia.
  - exists (Pos.iter xO p d), (Z.max (Zpos (digits2_pos p) + 0 - 53) (3 - 1024 - 53)).
    split; [|split; [lia|]].
    + apply binary_round_aux_exact; rewrite ?PyFacts.digits2_pos_iter_xO;
        unfold fexp, emin, prec, emax; lia.
    + rewrite iter_xO_value. f_equal. f_equal. lia.
Qed.

(** [.0f] shows an integer below [2^53] digit for digit. *)
Lemma format_float_of_Z (z : Z) :
  Z.abs z < 2 ^ 53 → format_float 0 (float_of_Z z) = pretty z.
Proof.
  intros Hz. unfold float_of_Z, binary_normalize.
  assert (Hdigits : ∀ m p e, e ≤ 0 → Zpos m = Zpos p * 2 ^ (- e) →
            scaled_digits 0 m e = Zpos p).
  { intros m p e He Hm. unfold scaled_digits. cbn [Z.of_nat]. rewrite Z.pow_0_r, Z.mul_1_r.
    destruct (Z.leb_spec 0 e) as [H0|H0].
    - replace e with 0 in * by lia. cbn in Hm. lia.
    - assert (0 < 2 ^ (- e)) by (apply Z.pow_pos_nonneg; lia).
      unfold round_half_even. rewrite Hm, Z.mod_mul, Z.div_mul by lia.
      cbn [Z.mul]. by destruct (2 ^ (- e)). }
  destruct z as [|p|p]; [done| |].
  - destruct (binary_round_small false p) as (m & e & -> & He & Hm); [lia|].
    cbn. by rewrite (Hdigits m p e).
  - destruct (binary_round_small true p) as (m & e & -> & He & Hm); [lia|].
    cbn. by rewrite (Hdigits m p e).
Qed.

End PyOrder.

(** * Further properties of one iteration *)

Section FurtherEntries.

Variable float_of_str : string → option Py.float.
Variable py_repr : value → string.

#[local] Abbreviation py_float := (py_float float_of_str).
#[local] Abbreviation py_str := (py_str py_repr).
#[local] Abbreviation item_mean := (item_mean float_of_str).
#[local] Abbreviation judge := (judge py_repr).
#[local] Abbreviation process_item := (process_item float_of_str py_repr).
#[local] Abbreviation classified := (classified float_of_str py_repr).
#[local] Abbreviation fails := (fails float_of_str py_repr).

Implicit Types (baseline : value) (table d : gmap string value).
Implicit Types (t mean : Py.float) (item v : value) (c : category) (e : exn).

(** The exceptions of lines 54-57: a baseline entry that is not a number,
    or an int too large for a float.  The guard of line 54 leaves no zero
    divisor. *)
Lemma compute_change_outcome mean v :
  (∃ e, compute_change mean v = Raise e ∧ (e = TypeError ∨ e = OverflowError)) ∨
  (∃ change, compute_change mean v = Ok change ∧
     usable_baseline_mean v ∧
     (change = Py.NInt 0 ∨ ∃ f, change = Py.NFloat f)).
Proof.
  unfold compute_change. destruct (py_eq_zero v) eqn:Hz.
  { right. exists (Py.NInt 0). split; [done|]. split; [by apply eq_zero_usable|by left]. }
  unfold py_sub, py_truediv, py_eq_zero in *.
  destruct (as_number v) as [n|] eqn:Hn; [|left; exists TypeError; eauto].
  unfold Py.float_sub, Py.float_truediv.
  destruct (Py.as_float n) as [b|e] eqn:Hb.
  - right. cbn. rewrite (PyFacts.as_float_nonzero n b Hz Hb). cbn.
    eexists. split; [done|]. split; [exists n; split; [done|by exists b]|eauto].
  - left. exists e. split; [done|]. right.
    destruct n as [z|f]; [|done]. unfold Py.as_float, Py.int_to_float in Hb.
    by destruct (Py.float_of_Z z); simplify_eq.
Qed.

Lemma py_float_exn v e :
  py_float v = Raise e → e = TypeError ∨ e = ValueError ∨ e = OverflowError.
Proof.
  destruct v as [|b|z|f|s| |]; cbn; try (intros [= <-]; eauto); try done.
  - unfold Py.int_to_float. destruct (Py.float_of_Z z); intros [= <-]; eauto.
  - destruct (float_of_str s); intros [= <-]; eauto.
Qed.

(** One iteration, for all thresholds at once: it raises, and then the
    same exception whatever the threshold; or it files a NewBenchmark; or
    it has a change, the int [0] or a float, and files the entry by the
    verdict on it.  The exception is never a KeyError nor a
    ZeroDivisionError, and an IndexError only against a baseline that is
    a list. *)
Lemma process_item_cases baseline item :
  (∃ e, (e = AttributeError ∨ e = TypeError ∨ e = ValueError ∨ e = OverflowError ∨
         (e = IndexError ∧ ∃ l, baseline = VList l)) ∧
        ∀ t, process_item baseline t item = Raise e) ∨
  (∃ msg, ∀ t, process_item baseline t item = Ok (NewBenchmark, msg)) ∨
  (∃ change, (change = Py.NInt 0 ∨ ∃ f, change = Py.NFloat f) ∧
     ∀ t, ∃ msg, process_item baseline t item = Ok (verdict t change, msg)).
Proof.
  destruct item as [| | | | | |d];
    try (left; exists AttributeError; split; [eauto|done]).
  destruct (item_fields float_of_str d) as [Hmeth Hmean].
  destruct (item_mean (VDict d)) as [mean|e] eqn:Hm.
  2: { left. exists e. split.
       - symmetry in Hmean. apply py_float_exn in Hmean.
         destruct Hmean as [->|[->| ->]]; eauto.
       - intros t. unfold process_item. by rewrite Hmeth, Hm. }
  destruct (py_contains baseline (default VNone (d !! "method")))
    as [[|]|e] eqn:Hin.
  - destruct (py_getitem baseline (default VNone (d !! "method"))) as [v|e] eqn:Hv.
    + destruct (compute_change_outcome mean v)
        as [(e & Hc & He)|(change & Hc & Hu & Hshape)].
      * left. exists e. split; [destruct He as [->| ->]; eauto|]. intros t.
        by rewrite (process_item_found _ _ baseline t d v mean Hin Hv Hm), Hc.
      * right. right. exists change. split; [done|]. intros t.
        rewrite (process_item_found _ _ baseline t d v mean Hin Hv Hm), Hc.
        by apply judge_returns.
    + left. exists e. split.
      * destruct (py_getitem_exn _ _ _ Hin Hv) as [->|[-> Hl]]; eauto 6.
      * intros t. unfold process_item. rewrite Hmeth, Hm. cbn [mbind result_bind].
        by rewrite Hin, Hv.
  - right. left. eexists. intros t.
    by apply (process_item_unknown _ _ baseline t d mean).
  - left. exists e. split.
    + apply py_contains_exn in Hin as ->. eauto.
    + intros t. unfold process_item. rewrite Hmeth, Hm. cbn [mbind result_bind].
      by rewrite Hin.
Qed.

(** Being well formed is what it takes for the iteration to file the
    entry: an entry is filed, under whatever threshold, exactly when it is
    well formed. *)
Lemma filed_iff_well_formed baseline t item :
  returns (process_item baseline t item) ↔ well_formed_item float_of_str baseline item.
Proof.
  split; [|intros Hwf;
           destruct (process_item_total float_of_str py_repr baseline t item Hwf)
             as (c & msg & H); by exists (c, msg)].
  intros [[c msg] Hret]. destruct item as [| | | | | |d]; try done.
  destruct (item_fields float_of_str d) as [Hmeth Hmean].
  unfold process_item in Hret. rewrite Hmeth in Hret. cbn [mbind result_bind] in Hret.
  destruct (item_mean (VDict d)) as [mean|e] eqn:Hm; [|done].
  cbn [mbind result_bind] in Hret.
  exists d. split; [done|].
  destruct (py_contains baseline (default VNone (d !! "method")))
    as [known|e] eqn:Hin; [|done].
  split; [by eexists|]. split; [rewrite <- Hmean; by eexists|].
  intros [= ->]. cbn [mbind result_bind] in Hret.
  destruct (py_getitem baseline (default VNone (d !! "method"))) as [v|e] eqn:Hv; [|done].
  exists v. split; [done|]. cbn [mbind result_bind] in Hret.
  destruct (compute_change_outcome mean v) as [(e & Hc & _)|(change & _ & Hu & _)];
    [by rewrite Hc in Hret|done].
Qed.

(** A verdict of Regression survives a lower threshold. *)
Lemma verdict_monotone t t' (change : Py.number) :
  change = Py.NInt 0 ∨ (∃ f, change = Py.NFloat f) →
  float_leb t t' = true →
  verdict t' change = Regression → verdict t change = Regression.
Proof.
  intros Hshape Hle. unfold verdict.
  assert (Py.gt change (Py.NFloat t') = true → Py.gt change (Py.NFloat t) = true) as Hgt.
  { destruct Hshape as [->|[f ->]].
    - rewrite !PyFacts.gt_zero_float. by apply PyOrder.fleb_fltb_trans.
    - by apply PyOrder.fleb_fltb_trans. }
  destruct (Py.gt change (Py.NFloat t')); [by rewrite Hgt|].
  by destruct (Py.gt change (Py.NInt 0)).
Qed.

Lemma fails_monotone baseline t t' item :
  float_leb t t' = true → fails baseline t' item → fails baseline t item.
Proof.
  intros Hle Hfail. unfold fails, raises, classified in *.
  destruct (process_item_cases baseline item)
    as [(e & _ & He)|[(msg & Hnew)|(change & Hshape & Hc)]].
  - left. exists e. apply He.
  - rewrite Hnew in Hfail. destruct Hfail as [[? ?]|[? ?]]; done.
  - right. destruct (Hc t') as [msg' Ht'], (Hc t) as [msg Ht].
    rewrite Ht' in Hfail. destruct Hfail as [[? ?]|[m [= Hv _]]]; [done|].
    exists msg. by rewrite Ht, (verdict_monotone t t' change).
Qed.

(** With a NaN or an infinite threshold nothing is a Regression. *)
Lemma unbounded_threshold_no_regression baseline t item :
  t = S754_nan ∨ t = S754_infinity false →
  ¬ classified baseline t item Regression.
Proof.
  intros Ht [msg Hreg].
  destruct (process_item_cases baseline item)
    as [(e & _ & He)|[(m & Hnew)|(change & _ & Hc)]].
  - by rewrite He in Hreg.
  - by rewrite Hnew in Hreg.
  - destruct (Hc t) as [m Hm]. rewrite Hm in Hreg. injection Hreg as Hv _.
    unfold verdict in Hv. rewrite (PyOrder.gt_unbounded change t Ht) in Hv.
    by destruct (Py.gt change (Py.NInt 0)).
Qed.

(** A table matters to an iteration through the lookup of the entry's
    method only. *)
Lemma process_item_frame table table' t item :
  baseline_entry (VDict table) item = baseline_entry (VDict table') item →
  process_item (VDict table) t item = process_item (VDict table') t item.
Proof.
  destruct item as [| | | | | |d]; try done.
  rewrite !(baseline_entry_table float_of_str). intros Hsame. unfold process_item.
  destruct (item_fields float_of_str d) as [-> _]. cbn [mbind result_bind].
  destruct (item_mean (VDict d)); [|done]. cbn [mbind result_bind].
  destruct (d !! "method") as [[| | | |s| |]|]; try done. cbn. by rewrite Hsame.
Qed.

End FurtherEntries.

(** * Further properties of a run *)

Section FurtherRuns.

Variable float_of_str : string → option Py.float.
Variable py_repr : value → string.

#[local] Abbreviation item_mean := (item_mean float_of_str).
#[local] Abbreviation process_item := (process_item float_of_str py_repr).
#[local] Abbreviation process_all := (process_all float_of_str py_repr).
#[local] Abbreviation well_formed_item := (well_formed_item float_of_str).
#[local] Abbreviation classified := (classified float_of_str py_repr).
#[local] Abbreviation filed := (filed float_of_str py_repr).
#[local] Abbreviation fails := (fails float_of_str py_repr).
#[local] Abbreviation regression_detected := (regression_detected float_of_str py_repr).
#[local] Abbreviation run := (run float_of_str py_repr).

Implicit Types (baseline : value) (table d : gmap string value).
Implicit Types (t mean : Py.float) (item v : value) (items : list value).
Implicit Types (c : category) (e : exn) (w : world) (b : buckets).

Lemma results_doc_entries items : benchmark_entries (results_doc items) = Ok items.
Proof. done. Qed.

(** The exit status of a run whose results document yields [items]: it is
    1 exactly when some entry fails. *)
Lemma exit_status_entries w results items :
  results_on_disk w = Some (Document results) →
  benchmark_entries results = Ok items →
  (exit_status (run w).2 = 1 ↔
     ∃ item, item ∈ items ∧ fails (baseline_table w) (regression_threshold w) item) ∧
  (exit_status (run w).2 = 1 ∨ exit_status (run w).2 = 0).
Proof.
  intros Hres Hitems.
  destruct (exit_status_one_iff float_of_str py_repr w) as [Hcases Hiff].
  split; [|done]. rewrite Hiff, (run_raises float_of_str py_repr w).
  unfold regression_detected, entries, fails.
  rewrite Hres, Hitems. split.
  - intros [?|[[? ?]|[(r & [= <-] & Hr)|(item & Hin & Hc)]]]; try done.
    + rewrite Hitems in Hr. cbn in Hr. apply process_all_raises in Hr as (x & Hx & Hr).
      exists x. split; [done|by left].
    + exists item. split; [done|by right].
  - intros (item & Hin & [Hr|Hc]).
    + right. right. left. exists results. split; [done|]. rewrite Hitems. cbn.
      apply process_all_raises. by exists item.
    + right. right. right. by exists item.
Qed.



(** X3.  The file-system calls of any run are an initial part of: probe
    the results path, open it, probe the baseline path, open it.  The
    baseline path is probed exactly when the results document loaded, and
    opened exactly when moreover it exists. *)
Theorem file_system_calls w :
  fs_log (run w).1 `prefix_of` all_calls ∧
  (Probe BaselineFile ∈ fs_log (run w).1 ↔
     ∃ results, results_on_disk w = Some (Document results)) ∧
  (Open BaselineFile ∈ fs_log (run w).1 ↔
     (∃ results, results_on_disk w = Some (Document results)) ∧
     is_Some (baseline_on_disk w)).
Proof.
  assert (Hin : ∀ (x : fs_event) l, x ∈ l ↔ In x l) by (intros; apply list_elem_of_In).
  destruct (results_on_disk w) as [[msg|results]|] eqn:Hres.
  - rewrite (run_unloadable float_of_str py_repr w msg Hres). cbn [fst fs_log].
    split; [by exists [Probe BaselineFile; Open BaselineFile]|].
    rewrite !Hin. cbn. split; split; try (by intros [? ?]); try (by intros [[? ?] _]);
      by intros [|[|[]]].
  - rewrite (run_document float_of_str py_repr w results Hres). cbn zeta.
    assert (∀ r : console * result Z,
              fs_log r.1 = [Probe ResultsFile; Open ResultsFile] ++ baseline_calls w →
              fs_log r.1 `prefix_of` all_calls ∧
              (Probe BaselineFile ∈ fs_log r.1 ↔
                 ∃ results0, Some (Document results) = Some (Document results0)) ∧
              (Open BaselineFile ∈ fs_log r.1 ↔
                 (∃ results0, Some (Document results) = Some (Document results0)) ∧
                 is_Some (baseline_on_disk w))) as Hlog.
    { intros r ->. unfold baseline_calls. rewrite !Hin.
      destruct (baseline_on_disk w) as [l|]; cbn.
      - split; [by exists []|]. split; split; eauto; try tauto.
      - split; [by exists [Open BaselineFile]|]. split; split; eauto; try tauto.
        + by intros [|[|[|[]]]].
        + by intros [_ [? ?]]. }
    apply Hlog. by destruct (_ ≫= _).
  - rewrite (run_missing float_of_str py_repr w Hres). cbn [fst fs_log].
    split; [by exists [Open ResultsFile; Probe BaselineFile; Open BaselineFile]|].
    rewrite !Hin. cbn. split; split; try (by intros [? ?]); try (by intros [[? ?] _]);
      by intros [|[]].
Qed.


(** X5.  The exit status does not depend on the order of the entries. *)
Theorem exit_status_permutation w items items' :
  items ≡ₚ items' →
  exit_status (run (with_entries w items)).2 =
  exit_status (run (with_entries w items')).2.
Proof.
  intros Hperm.
  destruct (exit_status_entries (with_entries w items) _ items eq_refl
              (results_doc_entries items)) as [H1 Hc1].
  destruct (exit_status_entries (with_entries w items') _ items' eq_refl
              (results_doc_entries items')) as [H2 Hc2].
  assert (exit_status (run (with_entries w items)).2 = 1 ↔
          exit_status (run (with_entries w items')).2 = 1) as Hiff.
  { rewrite H1, H2. change (baseline_table (with_entries w items'))
      with (baseline_table (with_entries w items)).
    split; intros (item & Hin & Hf); exists item; split; try done.
    - by rewrite <- Hperm.
    - by rewrite Hperm. }
  destruct Hc1 as [Hc1|Hc1], Hc2 as [Hc2|Hc2]; try congruence.
  - apply Hiff in Hc1. congruence.
  - apply Hiff in Hc2. congruence.
Qed.

(** X6.  The exit status of a run on two lists of entries put together is
    1 exactly when it is 1 on one of the two. *)
Theorem exit_status_concatenation w items1 items2 :
  exit_status (run (with_entries w (items1 ++ items2))).2 = 1 ↔
  exit_status (run (with_entries w items1)).2 = 1 ∨
  exit_status (run (with_entries w items2)).2 = 1.
Proof.
  rewrite (proj1 (exit_status_entries (with_entries w (items1 ++ items2)) _ _ eq_refl
                    (results_doc_entries _))).
  rewrite (proj1 (exit_status_entries (with_entries w items1) _ _ eq_refl
                    (results_doc_entries _))).
  rewrite (proj1 (exit_status_entries (with_entries w items2) _ _ eq_refl
                    (results_doc_entries _))).
  change (baseline_table (with_entries w _)) with (baseline_table w).
  change (regression_threshold (with_entries w _)) with (regression_threshold w).
  split.
  - intros (item & [Hin|Hin]%elem_of_app & Hf); [left|right]; by exists item.
  - intros [(item & Hin & Hf)|(item & Hin & Hf)]; exists item;
      (split; [apply elem_of_app; auto|done]).
Qed.

(** X7.  Lowering the threshold never turns a failing run into a passing
    one: a run that exits with 1 still does under any smaller
    threshold. *)
Theorem exit_status_threshold_monotone w t t' :
  float_leb t t' = true →
  exit_status (run (with_threshold w t')).2 = 1 →
  exit_status (run (with_threshold w t)).2 = 1.
Proof.
  intros Hle.
  destruct (results_on_disk w) as [[msg|results]|] eqn:Hres.
  - intros _. by rewrite (run_unloadable float_of_str py_repr (with_threshold w t) msg Hres).
  - destruct (benchmark_entries results) as [items|e] eqn:Hitems.
    + rewrite (proj1 (exit_status_entries (with_threshold w t') results items Hres Hitems)).
      rewrite (proj1 (exit_status_entries (with_threshold w t) results items Hres Hitems)).
      intros (item & Hin & Hf). exists item. split; [done|].
      by apply (fails_monotone float_of_str py_repr _ t t').
    + intros _. rewrite (run_document float_of_str py_repr (with_threshold w t) results Hres).
      cbn zeta. by rewrite Hitems.
  - intros _. by rewrite (run_missing float_of_str py_repr (with_threshold w t) Hres).
Qed.

(** X8.  A threshold that is NaN or plus infinity switches the gate off:
    no entry is a Regression, and the exit status is 1 only when the
    results file is missing or does not load or an exception leaves
    [main]. *)
Theorem unbounded_threshold_disables_gate w :
  regression_threshold w = S754_nan ∨ regression_threshold w = S754_infinity false →
  (∀ item, ¬ classified (baseline_table w) (regression_threshold w) item Regression) ∧
  (exit_status (run w).2 = 1 ↔
     results_on_disk w = None ∨
     (∃ msg, results_on_disk w = Some (Unloadable msg)) ∨
     raises (run w).2).
Proof.
  intros Ht.
  assert (Hnone : ∀ item,
            ¬ classified (baseline_table w) (regression_threshold w) item Regression)
    by (intros item; by apply unbounded_threshold_no_regression).
  split; [done|].
  rewrite (proj2 (exit_status_one_iff float_of_str py_repr w)).
  split; [|tauto]. intros [?|[?|[?|(item & _ & Hc)]]]; auto. by destruct (Hnone item).
Qed.

End FurtherRuns.

(** * Further properties: edge values *)

Section EdgeValues.

Variable float_of_str : string → option Py.float.
Variable py_repr : value → string.

#[local] Abbreviation item_mean := (item_mean float_of_str).
#[local] Abbreviation judge := (judge py_repr).
#[local] Abbreviation process_item := (process_item float_of_str py_repr).
#[local] Abbreviation process_all := (process_all float_of_str py_repr).
#[local] Abbreviation classified := (classified float_of_str py_repr).
#[local] Abbreviation run := (run float_of_str py_repr).

Implicit Types (baseline : value) (table d : gmap string value).
Implicit Types (t mean : Py.float) (item v : value) (items : list value).
Implicit Types (w : world) (b : buckets).


(** X10.  A results object without a [benchmarks] key is a run on no
    entries: the banner and the closing success lines, and exit code 0. *)
Theorem missing_benchmarks_key w rd :
  results_on_disk w = Some (Document (VDict rd)) →
  rd !! "benchmarks" = None →
  run w =
    ({| stdout := baseline_warning w ++ empty_report;
        fs_log := [Probe ResultsFile; Open ResultsFile] ++ baseline_calls w |}, Ok 0).
Proof.
  intros Hres Hkey.
  assert (Hitems : benchmark_entries (VDict rd) = Ok [])
    by (unfold benchmark_entries, py_get; by rewrite Hkey).
  assert (Hfiled : filed float_of_str py_repr (baseline_table w)
                     (regression_threshold w) [] []) by constructor.
  by rewrite (run_loaded float_of_str py_repr w _ [] [] Hres Hitems Hfiled).
Qed.

Lemma process_all_frame table table' t items : ∀ b,
  (∀ item, item ∈ items →
     baseline_entry (VDict table) item = baseline_entry (VDict table') item) →
  process_all (VDict table) t items b = process_all (VDict table') t items b.
Proof.
  induction items as [|item items IH]; intros b Hsame; cbn; [done|].
  rewrite (process_item_frame _ _ table table' t item)
    by (apply Hsame, elem_of_cons; by left).
  destruct (process_item (VDict table') t item) as [[c msg]|e]; cbn; [|done].
  apply IH. intros x Hx. apply Hsame, elem_of_cons. by right.
Qed.

(** X11.  Entries of a baseline table that no benchmark entry looks up do
    not matter: two tables that agree on the methods of the entries give
    the same output, the same file-system calls and the same outcome. *)
Theorem unused_baseline_entries w table table' :
  (∀ item, item ∈ entries w →
     baseline_entry (VDict table) item = baseline_entry (VDict table') item) →
  run (with_baseline w (VDict table)) = run (with_baseline w (VDict table')).
Proof.
  intros Hsame. unfold entries in Hsame.
  destruct (results_on_disk w) as [[msg|results]|] eqn:Hres.
  - by rewrite (run_unloadable float_of_str py_repr (with_baseline w (VDict table)) msg Hres),
      (run_unloadable float_of_str py_repr (with_baseline w (VDict table')) msg Hres).
  - rewrite (run_document float_of_str py_repr (with_baseline w (VDict table)) results Hres).
    rewrite (run_document float_of_str py_repr (with_baseline w (VDict table')) results Hres).
    cbn zeta.
    change (baseline_table (with_baseline w (VDict table))) with (VDict table).
    change (baseline_table (with_baseline w (VDict table'))) with (VDict table').
    change (regression_threshold (with_baseline w _)) with (regression_threshold w).
    destruct (benchmark_entries results) as [items|e]; cbn [mbind result_bind]; [|done].
    by rewrite (process_all_frame table table' _ items empty_buckets Hsame).
  - by rewrite (run_missing float_of_str py_repr (with_baseline w (VDict table)) Hres),
      (run_missing float_of_str py_repr (with_baseline w (VDict table')) Hres).
Qed.

Lemma int_to_float_small (z : Z) :
  Z.abs z < 2 ^ 53 → Py.int_to_float z = Ok (Py.float_of_Z z).
Proof.
  intros Hz. destruct (PyFacts.int_to_float_returns z) as [f Hf]; [lia|].
  unfold Py.int_to_float in *. by destruct (Py.float_of_Z z).
Qed.

(** X12.  Integer nanosecond values below [2^53] are printed digit for
    digit: the mean in a new-benchmark message, and the baseline and the
    current mean in a regression message. *)
Theorem integer_means_shown_exactly table t d s z :
  d !! "method" = Some (VStr s) →
  d !! "mean" = Some (VInt z) →
  Z.abs z < 2 ^ 53 →
  (table !! s = None →
     process_item (VDict table) t (VDict d) =
       Ok (NewBenchmark, s +:+ ": new benchmark (mean: " +:+ pretty z +:+ "ns)")) ∧
  (∀ bz, table !! s = Some (VInt bz) → Z.abs bz < 2 ^ 53 →
     classified (VDict table) t (VDict d) Regression →
     ∃ pct, process_item (VDict table) t (VDict d) =
       Ok (Regression,
           s +:+ ": " +:+ pct +:+ "% regression (baseline: " +:+ pretty bz +:+
           "ns, current: " +:+ pretty z +:+ "ns)")).
Proof.
  intros Hs Hm Hz.
  assert (Hmean : item_mean (VDict d) = Ok (Py.float_of_Z z)).
  { destruct (item_fields float_of_str d) as [_ ->]. rewrite Hm. by apply int_to_float_small. }
  split.
  - intros Hnone.
    assert (Hin : py_contains (VDict table) (default VNone (d !! "method")) = Ok false).
    { rewrite Hs. cbn. rewrite Hnone. by rewrite bool_decide_eq_false_2 by (by intros [? ?]). }
    rewrite (process_item_unknown _ _ (VDict table) t d (Py.float_of_Z z) Hin Hmean), Hs.
    cbn [default py_str]. by rewrite PyOrder.format_float_of_Z.
  - intros bz Hb Hbz [msg Hreg].
    rewrite (process_item_known _ _ table t d s _ _ Hs Hb Hmean) in *.
    destruct (compute_change_outcome (Py.float_of_Z z) (VInt bz))
      as [(e & Hc & _)|(change & Hc & _ & Hshape)]; rewrite Hc in *; [done|].
    cbn [mbind result_bind] in *. unfold judge in *.
    destruct (Py.gt change (Py.NFloat t)).
    + assert (Hfmt : py_format_f 0 (VInt bz) = Ok (pretty bz)).
      { unfold py_format_f, Py.format_f. cbn [as_number Py.as_float].
        rewrite int_to_float_small by done. cbn.
        by rewrite PyOrder.format_float_of_Z. }
      rewrite Hfmt, PyOrder.format_float_of_Z by done.
      destruct Hshape as [->|[f ->]]; cbn; eauto.
    + destruct (Py.gt change (Py.NInt 0));
        destruct Hshape as [->|[f ->]]; cbn in Hreg; by simplify_eq.
Qed.

(** X13.  With a threshold of zero or less no entry is
    SlowerWithinThreshold: every slowdown is a Regression. *)
Theorem no_tolerance_no_slower baseline t item :
  float_leb t Py.fzero = true →
  ¬ classified baseline t item SlowerWithinThreshold.
Proof.
  intros Ht [msg Hslow].
  destruct (process_item_cases float_of_str py_repr baseline item)
    as [(e & _ & He)|[(m & Hnew)|(change & Hshape & Hc)]].
  - by rewrite He in Hslow.
  - by rewrite Hnew in Hslow.
  - destruct (Hc t) as [m Hm]. rewrite Hm in Hslow. injection Hslow as Hv _.
    unfold verdict in Hv. destruct Hshape as [->|[f ->]].
    + by destruct (Py.gt (Py.NInt 0) (Py.NFloat t)).
    + rewrite PyFacts.gt_float_zero in Hv. cbn [Py.gt] in Hv.
      destruct (Py.fltb Py.fzero f) eqn:Hpos.
      * by rewrite (PyOrder.fleb_fltb_trans t Py.fzero f Ht Hpos) in Hv.
      * by destruct (Py.fltb t f).
Qed.

(** X14.  An entry whose mean equals its non-zero finite baseline mean has
    a change of zero and, unless the threshold is below zero, is an
    Improvement reported as [0.0% faster]. *)
Theorem unchanged_is_improvement table t d s v n sb mb eb :
  d !! "method" = Some (VStr s) →
  table !! s = Some v →
  as_number v = Some n →
  Py.as_float n = Ok (S754_finite sb mb eb) →
  item_mean (VDict d) = Ok (S754_finite sb mb eb) →
  Py.fltb t Py.fzero = false →
  process_item (VDict table) t (VDict d) =
    Ok (Improvement, s +:+ ": 0.0% faster (improvement)").
Proof.
  intros Hs Hv Hn Hbase Hmean Ht.
  rewrite (process_item_known _ _ table t d s v _ Hs Hv Hmean).
  assert (Hz : Py.eq_zero n = false).
  { destruct n as [z|f]; cbn in *.
    - apply Z.eqb_neq. intros ->. by vm_compute in Hbase.
    - injection Hbase as ->. by destruct sb. }
  destruct (compute_change_returns (S754_finite sb mb eb) v n Hn)
    as [[Hz' _]|(_ & b' & Hb' & ->)]; [by eexists|congruence|].
  assert (b' = S754_finite sb mb eb) as -> by congruence.
  assert (Hsub : Py.fsub (S754_finite sb mb eb) (S754_finite sb mb eb) = Py.fzero).
  { unfold Py.fsub, SFsub. by rewrite Z.sub_diag. }
  rewrite Hsub. cbn [mbind result_bind]. unfold judge.
  assert (Hchange : Py.fdiv Py.fzero (S754_finite sb mb eb) = S754_zero sb) by done.
  rewrite Hchange, PyFacts.gt_float_zero. cbn [Py.gt].
  replace (Py.fltb t (S754_zero sb)) with (Py.fltb t Py.fzero)
    by (by destruct t as [[]|[]| |[] m e], sb).
  rewrite Ht. by destruct sb.
Qed.

End EdgeValues.

(** * The further properties on concrete inputs *)

(** Discharges [documented_entry] on a literal entry and a literal table. *)
Ltac literal_documented_entry :=
  do 4 eexists; split; [reflexivity|]; split; [reflexivity|];
  split; [reflexivity|]; split; [vm_compute; reflexivity|];
  split; [reflexivity|];
  let v := fresh "v" in let Hv := fresh "Hv" in
  intros v Hv; vm_compute in Hv;
  first [discriminate Hv | injection Hv as <-; vm_compute; reflexivity].



Lemma exit_status_permutation_witness :
  exit_status (run unused_float_of_str unused_repr
                 (with_entries missing_results_run [entry "foo" 150; entry "bar" 42])).2 =
  exit_status (run unused_float_of_str unused_repr
                 (with_entries missing_results_run [entry "bar" 42; entry "foo" 150])).2.
Proof.
  apply (exit_status_permutation unused_float_of_str unused_repr missing_results_run).
  apply perm_swap.
Defined.

Lemma exit_status_threshold_monotone_witness :
  exit_status (run unused_float_of_str unused_repr
                 (with_threshold (invocation threshold_default baseline_foo
                                    [entry "foo" 150]) Py.fzero)).2 = 1.
Proof.
  apply (exit_status_threshold_monotone unused_float_of_str unused_repr
           (invocation threshold_default baseline_foo [entry "foo" 150])
           Py.fzero threshold_default).
  - reflexivity.
  - vm_compute. reflexivity.
Defined.

Lemma unbounded_threshold_disables_gate_witness :
  ¬ classified unused_float_of_str unused_repr baseline_foo S754_nan
      (entry "foo" 1000000) Regression.
Proof.
  destruct (unbounded_threshold_disables_gate unused_float_of_str unused_repr
              (invocation S754_nan baseline_foo [entry "foo" 1000000]))
    as [Hnone _].
  - left. reflexivity.
  - exact (Hnone (entry "foo" 1000000)).
Defined.


Lemma missing_benchmarks_key_witness :
  run unused_float_of_str unused_repr
    {| results_file := "results.json";
       regression_threshold := threshold_default;
       results_on_disk := Some (Document (VDict ∅));
       baseline_on_disk := None |} =
  ({| stdout := empty_report;
      fs_log := [Probe ResultsFile; Open ResultsFile; Probe BaselineFile] |}, Ok 0).
Proof.
  apply (missing_benchmarks_key unused_float_of_str unused_repr
           {| results_file := "results.json";
              regression_threshold := threshold_default;
              results_on_disk := Some (Document (VDict ∅));
              baseline_on_disk := None |} ∅).
  - reflexivity.
  - reflexivity.
Defined.

Lemma unused_baseline_entries_witness :
  run unused_float_of_str unused_repr
    (with_baseline (invocation threshold_default (VDict ∅) [entry "foo" 150])
       (VDict table_foo)) =
  run unused_float_of_str unused_repr
    (with_baseline (invocation threshold_default (VDict ∅) [entry "foo" 150])
       (VDict (<["gone" := VStr "n/a"]> table_foo))).
Proof.
  apply (unused_baseline_entries unused_float_of_str unused_repr
           (invocation threshold_default (VDict ∅) [entry "foo" 150])).
  intros item Hin. apply list_elem_of_In in Hin.
  change (In item [entry "foo" 150]) in Hin.
  destruct Hin as [<-|[]]. vm_compute. reflexivity.
Defined.

Lemma integer_means_shown_exactly_witness :
  process_item unused_float_of_str unused_repr baseline_foo threshold_default
    (entry "bar" 1234567) =
  Ok (NewBenchmark, "bar" +:+ ": new benchmark (mean: " +:+ pretty 1234567 +:+ "ns)").
Proof.
  destruct (integer_means_shown_exactly unused_float_of_str unused_repr table_foo
              threshold_default (<["method" := VStr "bar"]> (<["mean" := VInt 1234567]> ∅))
              "bar" 1234567) as [Hnew _].
  - reflexivity.
  - reflexivity.
  - vm_compute. reflexivity.
  - apply Hnew. reflexivity.
Defined.

Lemma no_tolerance_no_slower_witness :
  ¬ classified unused_float_of_str unused_repr baseline_foo Py.fzero
      (entry "foo" 101) SlowerWithinThreshold.
Proof.
  apply (no_tolerance_no_slower unused_float_of_str unused_repr baseline_foo Py.fzero
           (entry "foo" 101)).
  reflexivity.
Defined.

Lemma unchanged_is_improvement_witness :
  process_item unused_float_of_str unused_repr baseline_foo threshold_default
    (entry "foo" 100) =
  Ok (Improvement, "foo" +:+ ": 0.0% faster (improvement)").
Proof.
  apply (unchanged_is_improvement unused_float_of_str unused_repr table_foo
           threshold_default _ "foo" (VInt 100) (Py.NInt 100)
           false 7036874417766400 (-46)).
  - reflexivity.
  - reflexivity.
  - reflexivity.
  - reflexivity.
  - reflexivity.
  - reflexivity.
Defined.
